(** * linkChecker.py: extraction and checking of the links of a web page

    A shallow embedding of [src/linkChecker.py].  Python [str] values are
    Rocq strings whose characters are code points below 256; Python [int]
    values are [Z].  The program prints, makes HTTP requests and raises
    exceptions: these effects live in a state-and-exception monad over a
    [world] that records the requests sent and the lines printed.

    The third-party capabilities the script calls are not part of the
    repository.  The HTML parser, [urljoin], the browser, the HTTP
    transport and [argparse] are section variables; the scheme detection of
    [urllib.parse.urlparse], on which [is_http_url] branches, is written
    out after CPython 3.12. *)

From Stdlib Require Import String Ascii List ZArith NArith Lia Bool.
From Stdlib Require Import Sorting.Sorted Sorting.Permutation.
From Stdlib Require Import Numbers.DecimalString.
From Stdlib Require Import Structures.OrderedTypeEx.
From ExtLib Require Import Structures.Monad Structures.MonadExc.
Import ListNotations.
Import MonadNotation.

Open Scope string_scope.

(** ** Python string primitives *)

Module PyStr.

(** [str.isspace] on one character (code points below 256). *)
Definition isspace (c : ascii) : bool :=
  let n := N_of_ascii c in
  (((9 <=? n) && (n <=? 13)) || ((28 <=? n) && (n <=? 32))
   || (n =? 133) || (n =? 160))%N.

Fixpoint lstrip_by (p : ascii -> bool) (s : string) : string :=
  match s with
  | EmptyString => EmptyString
  | String c s' => if p c then lstrip_by p s' else s
  end.

Fixpoint rstrip_by (p : ascii -> bool) (s : string) : string :=
  match s with
  | EmptyString => EmptyString
  | String c s' =>
      match rstrip_by p s' with
      | EmptyString => if p c then EmptyString else String c EmptyString
      | r => String c r
      end
  end.

(** [s.strip()] *)
Definition strip (s : string) : string := rstrip_by isspace (lstrip_by isspace s).

(** [s.startswith(p)] and [s.startswith((p1, ..., pn))] *)
Definition startswith (s p : string) : bool := String.prefix p s.

Definition startswith_any (s : string) (ps : list string) : bool :=
  existsb (startswith s) ps.

(** [s.replace(c, "")] for a one-character [c] *)
Fixpoint remove_char (c : ascii) (s : string) : string :=
  match s with
  | EmptyString => EmptyString
  | String d s' => if Ascii.eqb c d then remove_char c s' else String d (remove_char c s')
  end.

(** [s.partition(c)] without the separator: [None] when [c] does not occur
    ([s.find(c) == -1]), otherwise [(s[:i], s[i+1:])] for the first [i]. *)
Fixpoint split_first (c : ascii) (s : string) : option (string * string) :=
  match s with
  | EmptyString => None
  | String d s' =>
      if Ascii.eqb c d then Some (EmptyString, s')
      else match split_first c s' with
           | Some (a, b) => Some (String d a, b)
           | None => None
           end
  end.

Fixpoint forallb_string (p : ascii -> bool) (s : string) : bool :=
  match s with
  | EmptyString => true
  | String c s' => p c && forallb_string p s'
  end.

Fixpoint map_string (f : ascii -> ascii) (s : string) : string :=
  match s with
  | EmptyString => EmptyString
  | String c s' => String (f c) (map_string f s')
  end.

Definition is_upper (c : ascii) : bool :=
  let n := N_of_ascii c in ((65 <=? n) && (n <=? 90))%N.
Definition is_lower (c : ascii) : bool :=
  let n := N_of_ascii c in ((97 <=? n) && (n <=? 122))%N.
Definition is_digit (c : ascii) : bool :=
  let n := N_of_ascii c in ((48 <=? n) && (n <=? 57))%N.

(** [c.isascii() and c.isalpha()] *)
Definition is_ascii_alpha (c : ascii) : bool := is_upper c || is_lower c.

(** [s.lower()] on a string of scheme characters: only [A-Z] change. *)
Definition lower_char (c : ascii) : ascii :=
  if is_upper c then ascii_of_N (N_of_ascii c + 32) else c.
Definition lower (s : string) : string := map_string lower_char s.

(** [str(n)] for an [int] *)
Definition str_int (n : Z) : string := NilZero.string_of_int (Z.to_int n).

Definition newline : string := String (ascii_of_nat 10) EmptyString.

End PyStr.

(** ** Exceptions and results *)

(** The exception classes the script distinguishes.  [SystemExit] is what
    [sys.exit] raises; it is not an [Exception]. *)
Inductive exn : Type :=
| RequestException (msg : string)
| ValueError (msg : string)
| OtherException (msg : string)
| SystemExit (code : Z).

Definition is_RequestException (e : exn) : bool :=
  match e with RequestException _ => true | _ => false end.

(** [isinstance(e, Exception)] *)
Definition is_Exception (e : exn) : bool :=
  match e with SystemExit _ => false | _ => true end.

(** [str(e)] *)
Definition exn_str (e : exn) : string :=
  match e with
  | RequestException m | ValueError m | OtherException m => m
  | SystemExit c => PyStr.str_int c
  end.

Inductive result (A : Type) : Type :=
| Return (a : A)
| Raise (e : exn).
Arguments Return {A} a.
Arguments Raise {A} e.

#[global] Instance Monad_result : Monad result :=
  {| ret := fun _ a => Return a;
     bind := fun _ _ c k => match c with Return a => k a | Raise e => Raise e end |}.

#[global] Instance MonadExc_result : MonadExc exn result :=
  {| raise := fun _ e => Raise e;
     catch := fun _ c h => match c with Return a => Return a | Raise e => h e end |}.

(** ** urllib.parse: scheme detection *)

Module UrlParse.
Import PyStr.

(** [_WHATWG_C0_CONTROL_OR_SPACE]: code points 0 to 32. *)
Definition c0_control_or_space (c : ascii) : bool := (N_of_ascii c <=? 32)%N.

(** [_UNSAFE_URL_BYTES_TO_REMOVE = ['\t', '\r', '\n']] *)
Definition remove_unsafe (s : string) : string :=
  remove_char (ascii_of_nat 10) (remove_char (ascii_of_nat 13) (remove_char (ascii_of_nat 9) s)).

(** [scheme_chars]: letters, digits and [+-.] *)
Definition scheme_char (c : ascii) : bool :=
  is_upper c || is_lower c || is_digit c
  || Ascii.eqb c "+" || Ascii.eqb c "-" || Ascii.eqb c ".".

Definition first_is_alpha (s : string) : bool :=
  match s with
  | EmptyString => false
  | String c _ => is_ascii_alpha c
  end.

(** The first part of [urlsplit(url)]: the pair [(scheme, rest)] after
<<
    url = url.lstrip(_WHATWG_C0_CONTROL_OR_SPACE)
    for b in _UNSAFE_URL_BYTES_TO_REMOVE: url = url.replace(b, "")
    i = url.find(':')
    if i > 0 and url[0].isascii() and url[0].isalpha():
        for c in url[:i]:
            if c not in scheme_chars: break
        else:
            scheme, url = url[:i].lower(), url[i+1:]
>>
    with the default [scheme = '']. *)
Definition split_scheme (url : string) : string * string :=
  let url := remove_unsafe (lstrip_by c0_control_or_space url) in
  match split_first ":" url with
  | Some (pre, post) =>
      if negb (pre =? "") && first_is_alpha url && forallb_string scheme_char pre
      then (lower pre, post)
      else ("", url)
  | None => ("", url)
  end.

End UrlParse.

(** ** The world: requests sent and lines printed *)

Inductive http_method : Type := HEAD | GET.

(** One call [session.head(url, ...)] or [session.get(url, ...)] with the
    session's headers. *)
Record request : Type := mkRequest {
  req_method : http_method;
  req_url : string;
  req_headers : list (string * string);
  req_allow_redirects : bool;
  req_timeout : Z
}.

(** The fields of [requests.Response] that the script or
    [raise_for_status] read. *)
Record response : Type := mkResponse {
  status_code : Z;
  reason : string;
  resp_url : string;
  text : string
}.

(** What the [requests] library does with a request: it returns a
    response, or raises a [RequestException] (connection error, invalid
    URL, timeout, too many redirects, ...) carrying a message, or lets an
    error of another class escape: urllib3's [LocationParseError], a
    [ValueError], for a host with a label of more than 63 characters. *)
Inductive reply : Type :=
| Responds (r : response)
| Fails (msg : string)
| Escapes (msg : string).

Record world : Type := mkWorld {
  sent : list request;
  stdout : list string
}.

(** Computations that read and extend the world and may raise. *)
Definition M (A : Type) : Type := world -> result A * world.

#[global] Instance Monad_M : Monad M :=
  {| ret := fun _ a w => (Return a, w);
     bind := fun _ _ c k w =>
       match c w with
       | (Return a, w') => k a w'
       | (Raise e, w') => (Raise e, w')
       end |}.

#[global] Instance MonadExc_M : MonadExc exn M :=
  {| raise := fun _ e w => (Raise e, w);
     catch := fun _ c h w =>
       match c w with
       | (Return a, w') => (Return a, w')
       | (Raise e, w') => h e w'
       end |}.

(** [try: body  except C as e: handler e], with [C] given by its
    [isinstance] test: an exception of another class propagates. *)
Definition try_except {A : Type} (body : M A) (cls : exn -> bool)
    (handler : exn -> M A) : M A :=
  catch body (fun e => if cls e then handler e else raise e).

(** A pure computation that may raise, run inside [M]. *)
Definition lift {A : Type} (c : result A) : M A := fun w => (c, w).

(** [print(line)] *)
Definition print (line : string) : M unit :=
  fun w => (Return tt, mkWorld (sent w) (stdout w ++ [line])).

(** [sys.exit(code)] *)
Definition sys_exit {A : Type} (code : Z) : M A := raise (SystemExit code).

(** ** The link extractor *)

(** A Python [set] of strings, kept as a duplicate-free list in the order
    of insertion.  The script only reads the set through [sorted], whose
    result does not depend on that order. *)
Module PySet.

Fixpoint mem (x : string) (s : list string) : bool :=
  match s with
  | [] => false
  | y :: s' => (x =? y) || mem x s'
  end.

(** [s.add(x)] *)
Definition add (x : string) (s : list string) : list string :=
  if mem x s then s else s ++ [x].

(** [sorted(s)]: strings compare by code point, a proper prefix first. *)
Fixpoint insert (x : string) (l : list string) : list string :=
  match l with
  | [] => [x]
  | y :: l' => if String.leb x y then x :: l else y :: insert x l'
  end.

Definition sorted (s : list string) : list string :=
  fold_right insert [] s.

(** Python's [a <= b] and [a < b] on strings. *)
Definition le (a b : string) : Prop := String.leb a b = true.
Definition lt (a b : string) : Prop := String.ltb a b = true.

End PySet.

(** ** Stand-ins for the external capabilities

    Small concrete instances of the parser, the resolver, the browser and
    the network, on which the model is run. *)

Module Stub.
Import PyStr.

(** No network location is malformed. *)
Definition netloc_ok : string -> option string := fun _ => None.

Fixpoint assoc {A : Type} (k : string) (tbl : list (string * A)) : option A :=
  match tbl with
  | [] => None
  | (k', v) :: tbl' => if k =? k' then Some v else assoc k tbl'
  end.

(** A parser that knows a few documents by their text; each comes with
    the href values of its anchors. *)
Definition parser (docs : list (string * list string)) (html : string)
    : list string :=
  match assoc html docs with
  | Some hrefs => hrefs
  | None => []
  end.

(** No query and no fragment. *)
Definition plain (s : string) : bool :=
  forallb_string (fun c => negb (Ascii.eqb c "?" || Ascii.eqb c "#")) s.

(** An [http] or [https] URL made of a scheme and a network location only. *)
Definition site_root (base : string) : bool :=
  let (scheme, rest) := UrlParse.split_scheme base in
  ((scheme =? "http") || (scheme =? "https"))
  && (base =? scheme ++ ":" ++ rest) && startswith rest "//"
  && forallb_string (fun c => negb (Ascii.eqb c "/")) (substring 2 (String.length rest) rest)
  && plain rest.

(** Resolution on the part of [urljoin]'s domain that the examples need:
    an absolute URL with a network location and neither query nor fragment
    stands for itself; against an [http] or [https] base that has no path,
    query or fragment of its own, a reference that is empty after
    [urlsplit]'s clean-up resolves to the base, and an absolute path
    without query or fragment is appended to the base.  Anything else is
    refused. *)
Definition urljoin (base url : string) : result string :=
  let (scheme, rest) := UrlParse.split_scheme url in
  if negb (scheme =? "") && startswith rest "//" && plain rest
     && (url =? scheme ++ ":" ++ rest)
  then Return url
  else if (scheme =? "") && (rest =? "") && negb (url =? "") && site_root base
       then Return base
  else if (scheme =? "") && startswith rest "/" && negb (startswith rest "//")
          && plain rest && site_root base
       then Return (base ++ rest)
       else Raise (ValueError "stand-in resolver: unsupported reference").

(** A network that answers by URL: the reply to HEAD and the reply to GET;
    an unknown host cannot be reached. *)
Definition network (hosts : list (string * (reply * reply)))
    (_ : list request) (req : request) : reply :=
  match assoc (req_url req) hosts with
  | Some (h, g) => match req_method req with HEAD => h | GET => g end
  | None => Fails "unreachable"
  end.

(** A response with the given status and body. *)
Definition status (code : Z) (body : string) : reply :=
  Responds (mkResponse code "" "" body).

(** A browser that renders a few pages by URL and fails on the others. *)
Definition browser (pages : list (string * string)) (url : string) (_ : Z)
    : result string :=
  match assoc url pages with
  | Some html => Return html
  | None => Raise (OtherException "net::ERR_NAME_NOT_RESOLVED")
  end.

(** Three documents: a page with six anchors, two of them with the same
    href and one with an empty href; a page whose only anchor is a
    fragment; a page whose only anchor has a blank href. *)
Definition docs : list (string * list string) :=
  [("<page>", ["/missing"; "#top"; "https://ok.example/x"; "/missing";
               "mailto:a@site.test"; ""]);
   ("<top>", ["#top"]);
   ("<blank>", [" "])].

(** The hosts behind the links of these pages: one answers 200, one
    answers 404, one rejects HEAD with 405 and answers GET with 200. *)
Definition hosts : list (string * (reply * reply)) :=
  [("https://site.test", (status 200 "", status 200 "<page>"));
   ("https://top.test", (status 200 "", status 200 "<top>"));
   ("https://ok.example/x", (status 200 "", status 200 ""));
   ("https://site.test/missing", (status 404 "", status 404 ""));
   ("https://head.test/x", (status 405 "", status 200 ""))].

(** A check of the network location that knows one malformed shape: an
    opening bracket right after [//] with no closing bracket, which
    [urlsplit] refuses as an invalid IPv6 URL. *)
Definition netloc_brackets (rest : string) : option string :=
  if startswith rest "//["
     && forallb_string (fun c => negb (Ascii.eqb c "]")) rest
  then Some "Invalid IPv6 URL"
  else None.

(** More documents: the hrefs of [<page>] in another order and repeated,
    and a page with a malformed href. *)
Definition more_docs : list (string * list string) :=
  [("<page>", ["/missing"; "#top"; "https://ok.example/x"; "/missing";
               "mailto:a@site.test"; ""]);
   ("<shuffled>", [""; "https://ok.example/x"; "mailto:a@site.test";
                   "/missing"; "https://ok.example/x"; "#top"]);
   ("<bad>", ["/missing"; "//[broken"])].

(** More hosts: one whose HEAD times out while its GET answers 200, and
    the site that serves the page with the malformed href. *)
Definition more_hosts : list (string * (reply * reply)) :=
  [("https://get.test/x", (Fails "HEAD timed out", status 200 ""));
   ("https://bad.test", (status 200 "", status 200 "<bad>"))].

(** A URL whose host has a label of 64 characters, and what urllib3 says
    when it refuses to parse it. *)
Definition long_label_url : string :=
  "http://aaaaaaaaaaaaaaaaaaaaaaaaaaaaaaaaaaaaaaaaaaaaaaaaaaaaaaaaaaaaaaaa.test/".

Definition long_label_error : string :=
  "Failed to parse: "
  ++ "'aaaaaaaaaaaaaaaaaaaaaaaaaaaaaaaaaaaaaaaaaaaaaaaaaaaaaaaaaaaaaaaa.test'"
  ++ ", label empty or too long".

(** A page whose three links sort in another order than they appear, with
    two of them broken, and a page whose link to the long-label host
    sorts between two others. *)
Definition loop_docs : list (string * list string) :=
  [("<two>", ["/missing"; "https://ok.example/x"; "/gone"]);
   ("<long>", ["/z"; "http://a.test/x"; long_label_url])].

Definition loop_hosts : list (string * (reply * reply)) :=
  [("https://two.test", (status 200 "", status 200 "<two>"));
   ("https://two.test/gone", (status 410 "", status 410 ""));
   ("https://two.test/missing", (status 404 "", status 404 ""));
   ("https://ok.example/x", (status 200 "", status 200 ""));
   ("https://long.test", (status 200 "", status 200 "<long>"));
   ("http://a.test/x", (status 200 "", status 200 ""));
   ("https://long.test/z", (status 200 "", status 200 ""));
   (long_label_url, (Escapes long_label_error, Escapes long_label_error))].

(** An [argparse] for the two arguments of the script, on the command
    lines the examples use: the URL alone, the URL with [--no-js] before or
    after it, and the request for help; every other command line is taken
    for a usage error. *)
Definition argparse (argv : list string) : result (string * bool) :=
  match argv with
  | [url] =>
      if (url =? "-h") || (url =? "--help") then Raise (SystemExit 0)
      else if startswith url "-" then Raise (SystemExit 2)
      else Return (url, false)
  | [a; b] =>
      if (a =? "--no-js") && negb (startswith b "-") then Return (b, true)
      else if (b =? "--no-js") && negb (startswith a "-") then Return (a, true)
      else Raise (SystemExit 2)
  | _ => Raise (SystemExit 2)
  end.

End Stub.

Section Program.
Import PyStr.
Local Open Scope monad_scope.
#[local] Set Default Proof Using "Type".

(** What is left of [urlsplit] after the scheme is split off validates the
    network location and raises [ValueError] on a malformed one (for
    example an unbalanced bracket); [Some msg] is that error. *)
Variable netloc_error : string -> option string.

(** [urljoin(base, url)] of [urllib.parse]; it parses both arguments and
    so can raise [ValueError] as well. *)
Variable urljoin : string -> string -> result string.

(** [[a.get("href") for a in BeautifulSoup(html, "html.parser").find_all("a", href=True)]]:
    the href values of the anchors that carry one, in document order. *)
Variable anchor_hrefs : string -> list string.

(** [urlparse(url).scheme] *)
Definition urlparse_scheme (url : string) : result string :=
  let (scheme, rest) := UrlParse.split_scheme url in
  match netloc_error rest with
  | Some msg => Raise (ValueError msg)
  | None => Return scheme
  end.

Definition rejected_prefixes : list string :=
  ["#"; "mailto:"; "tel:"; "javascript:"; "data:"].

Definition is_http_url (href : string) : result bool :=
  if href =? "" then ret false
  else
    let href := strip href in
    scheme <- urlparse_scheme href ;;
    if (scheme =? "http") || (scheme =? "https") then ret true
    else if (scheme =? "") && negb (startswith_any href rejected_prefixes)
         then ret true
         else ret false.

(** The [for a in soup.find_all("a", href=True)] loop, over the href values;
    the state is [(links, raw_count)]. *)
Fixpoint extract_loop (base_url : string) (hrefs : list string)
    (links : list string) (raw_count : Z) : result (list string * Z) :=
  match hrefs with
  | [] => ret (links, raw_count)
  | raw_href :: rest =>
      let raw_count := (raw_count + 1)%Z in
      ok <- is_http_url raw_href ;;
      if negb ok then extract_loop base_url rest links raw_count
      else
        abs_url <- urljoin base_url raw_href ;;
        extract_loop base_url rest (PySet.add abs_url links) raw_count
  end.

(** [extract_links(html, base_url)] *)
Definition extract_links (html base_url : string) : M (list string) :=
  let hrefs := anchor_hrefs html in
  '(links, raw_count) <- lift (extract_loop base_url hrefs [] 0%Z) ;;
  print ("[INFO] Raw <a> tags with href found: " ++ str_int raw_count) ;;
  print ("[INFO] Unique checkable HTTP(S) links: "
         ++ str_int (Z.of_nat (List.length links))) ;;
  ret (PySet.sorted links).

(** ** The link checker *)

(** A [requests.Session]: the headers it sends with every request (the
    library's other default headers are left out). *)
Record session : Type := mkSession {
  headers : list (string * string)
}.

Definition create_session : session :=
  mkSession
    [("User-Agent",
      "Mozilla/5.0 (Windows NT 10.0; Win64; x64) "
      ++ "AppleWebKit/537.36 (KHTML, like Gecko) "
      ++ "Chrome/123.0 Safari/537.36")].

(** The network and the servers behind it: the reply to a request, which
    may depend on the requests sent before. *)
Variable transport : list request -> request -> reply.

Definition send (req : request) : M response :=
  fun w =>
    let w' := mkWorld (sent w ++ [req]) (stdout w) in
    match transport (sent w) req with
    | Responds r => (Return r, w')
    | Fails msg => (Raise (RequestException msg), w')
    | Escapes msg => (Raise (ValueError msg), w')
    end.

(** [session.head(url, allow_redirects=..., timeout=...)] *)
Definition session_head (s : session) (url : string) (allow_redirects : bool)
    (timeout : Z) : M response :=
  send (mkRequest HEAD url (headers s) allow_redirects timeout).

(** [session.get(url, allow_redirects=..., timeout=...)] *)
Definition session_get (s : session) (url : string) (allow_redirects : bool)
    (timeout : Z) : M response :=
  send (mkRequest GET url (headers s) allow_redirects timeout).

(** [resp.raise_for_status()] of [requests]: [HTTPError], a
    [RequestException], for a status from 400 to 599. *)
Definition raise_for_status (resp : response) : M unit :=
  let code := status_code resp in
  if ((400 <=? code) && (code <? 500))%Z then
    raise (RequestException (str_int code ++ " Client Error: " ++ reason resp
                             ++ " for url: " ++ resp_url resp))
  else if ((500 <=? code) && (code <? 600))%Z then
    raise (RequestException (str_int code ++ " Server Error: " ++ reason resp
                             ++ " for url: " ++ resp_url resp))
  else ret tt.

Definition check_link (s : session) (url : string) (timeout : Z)
    : M (bool * string) :=
  try_except
    (try_except
       (resp <- session_head s url true timeout ;;
        let code := status_code resp in
        if (code >=? 400)%Z then
          ret (true, "HTTP " ++ str_int code ++ " (HEAD)")
        else if existsb (Z.eqb code) [405; 403]%Z then
          raise (RequestException ("HEAD not reliable: " ++ str_int code))
        else
          ret (false, "HTTP " ++ str_int code ++ " (HEAD)"))
       is_RequestException
       (fun _ =>
        resp <- session_get s url true timeout ;;
        let code := status_code resp in
        if (code >=? 400)%Z then
          ret (true, "HTTP " ++ str_int code ++ " (GET)")
        else
          ret (false, "HTTP " ++ str_int code ++ " (GET)")))
    is_RequestException
    (fun e => ret (true, "Error: " ++ exn_str e)).

(** ** The orchestrator *)

(** The Playwright calls of [get_rendered_html]: the serialised DOM of the
    page, or the exception the browser automation raised. *)
Variable playwright_content : string -> Z -> result string.

Definition get_rendered_html (url : string) (timeout_ms : Z) : M string :=
  lift (playwright_content url timeout_ms).

(** The [for i, link in enumerate(links, start=1)] loop of [main]; the
    state is [broken_links]. *)
Fixpoint check_loop (s : session) (total i : Z) (links : list string)
    (broken_links : list (string * string)) : M (list (string * string)) :=
  match links with
  | [] => ret broken_links
  | link :: rest =>
      print ("[CHECK] (" ++ str_int i ++ "/" ++ str_int total ++ ") " ++ link) ;;
      '(is_broken, info) <- check_link s link 10 ;;
      if is_broken : bool then
        print ("  -> BROKEN: " ++ info) ;;
        check_loop s total (i + 1) rest (broken_links ++ [(link, info)])
      else
        print ("  -> OK: " ++ info) ;;
        check_loop s total (i + 1) rest broken_links
  end.

(** [for link, info in broken_links: print(...)] *)
Fixpoint print_broken (broken_links : list (string * string)) : M unit :=
  match broken_links with
  | [] => ret tt
  | (link, info) :: rest =>
      print ("- " ++ link ++ "  [" ++ info ++ "]") ;;
      print_broken rest
  end.

(** The summary block at the end of [main]. *)
Definition print_summary (total : Z) (broken_links : list (string * string))
    : M unit :=
  print (newline ++ "=== SUMMARY ===") ;;
  print ("Total links checked: " ++ str_int total) ;;
  print ("Broken links found: " ++ str_int (Z.of_nat (List.length broken_links))) ;;
  match broken_links with
  | [] => ret tt
  | _ => print (newline ++ "Broken links:") ;; print_broken broken_links
  end.

(** The first step of [main]: the HTML of the page, raw or rendered. *)
Definition fetch_html (s : session) (url : string) (no_js : bool) : M string :=
  if no_js then
    print ("[INFO] Fetching raw HTML (no JS) from: " ++ url) ;;
    try_except
      (resp <- session_get s url true 15 ;;
       raise_for_status resp ;;
       ret (text resp))
      is_RequestException
      (fun e =>
       print ("[ERROR] Could not fetch " ++ url ++ ": " ++ exn_str e) ;;
       sys_exit 1)
  else
    print ("[INFO] Rendering page with Playwright (Chromium): " ++ url) ;;
    try_except
      (get_rendered_html url 30000)
      is_Exception
      (fun e =>
       print ("[ERROR] Playwright failed to render page: " ++ exn_str e) ;;
       sys_exit 1).

(** [main()], after [argparse] has produced [args.url] and [args.no_js]. *)
Definition main (url : string) (no_js : bool) : M unit :=
  let s := create_session in
  html <- fetch_html s url no_js ;;
  print "[INFO] Extracting links from DOM..." ;;
  links <- extract_links html url ;;
  match links with
  | [] =>
      print ("[WARN] 0 checkable links found after rendering. "
             ++ "Inspect the HTML or relax filters.") ;;
      sys_exit 0
  | _ =>
      let total := Z.of_nat (List.length links) in
      print ("[INFO] Starting HTTP checks for " ++ str_int total ++ " link(s)...") ;;
      broken_links <- check_loop s total 1 links [] ;;
      print_summary total broken_links
  end.

(** [parser.parse_args()] of [argparse] on the command line: the pair
    [(args.url, args.no_js)], or the [SystemExit] that [argparse] raises,
    with status 2 after a usage error and status 0 after [-h]. *)
Variable parse_args : list string -> result (string * bool).

(** [main()] from its first line: the command line is parsed, then the
    run above takes place. *)
Definition main_argv (argv : list string) : M unit :=
  '(url, no_js) <- lift (parse_args argv) ;;
  main url no_js.

(** The exit status of the process that ran [main]: 0 when [main] returns,
    the code of an uncaught [SystemExit], 1 after any other uncaught
    exception. *)
Definition exit_status (r : result unit) : Z :=
  match r with
  | Return _ => 0
  | Raise (SystemExit code) => code
  | Raise _ => 1
  end.

Definition initial_world : world := mkWorld [] [].

(** The two requests of [check_link]. *)
Definition head_request (s : session) (url : string) (timeout : Z) : request :=
  mkRequest HEAD url (headers s) true timeout.
Definition get_request (s : session) (url : string) (timeout : Z) : request :=
  mkRequest GET url (headers s) true timeout.

(** The verdict for a response to the given method. *)
Definition http_verdict (code : Z) (method : string) : bool * string :=
  ((code >=? 400)%Z, "HTTP " ++ str_int code ++ " (" ++ method ++ ")").

(** The world after one more request. *)
Definition after_request (w : world) (req : request) : world :=
  mkWorld (sent w ++ [req]) (stdout w).

(** An href is accepted when [is_http_url] answers [True] and [urljoin]
    resolves it to [u]. *)
Definition resolves_to (base_url href u : string) : Prop :=
  is_http_url href = Return true /\ urljoin base_url href = Return u.

(** *** The run of the orchestrator, for the statements below *)

(** One [LinkResult]: a link and the pair [check_link] returned for it. *)
Definition link_result : Type := (string * (bool * string))%type.

Definition verdict_broken (r : link_result) : bool := fst (snd r).

(** The entries of [broken_links] that a list of results gives, in the
    order of the results. *)
Definition broken_of (results : list link_result) : list (string * string) :=
  map (fun r => (fst r, snd (snd r))) (filter verdict_broken results).

(** The line printed before a check and the line printed after it. *)
Definition check_line (total i : Z) (link : string) : string :=
  "[CHECK] (" ++ str_int i ++ "/" ++ str_int total ++ ") " ++ link.

Definition verdict_line (v : bool * string) : string :=
  if fst v then "  -> BROKEN: " ++ snd v else "  -> OK: " ++ snd v.

(** The line of one entry of the broken-link list. *)
Definition item_line (b : string * string) : string :=
  "- " ++ fst b ++ "  [" ++ snd b ++ "]".

(** The results of the loop of [main] from world [w], in the order the
    links are checked: each link with what [check_link] returned for it in
    the world the loop had reached. *)
Fixpoint link_results (s : session) (total i : Z) (links : list string)
    (w : world) : list link_result :=
  match links with
  | [] => []
  | link :: rest =>
      let w1 := snd (print (check_line total i link) w) in
      match check_link s link 10 w1 with
      | (Return v, w2) =>
          (link, v)
          :: link_results s total (i + 1) rest (snd (print (verdict_line v) w2))
      | (Raise _, _) => []
      end
  end.

(** The lines the loop prints for a list of results. *)
Fixpoint progress_lines (total i : Z) (results : list link_result) : list string :=
  match results with
  | [] => []
  | (link, v) :: rest =>
      check_line total i link :: verdict_line v
      :: progress_lines total (i + 1) rest
  end.

(** The lines of the summary block for [total] links and a broken-link list
    that is reported to have [count] entries. *)
Definition summary_lines (total count : Z) (broken_links : list (string * string))
    : list string :=
  [newline ++ "=== SUMMARY ===";
   "Total links checked: " ++ str_int total;
   "Broken links found: " ++ str_int count]
  ++ match broken_links with
     | [] => []
     | _ => (newline ++ "Broken links:") :: map item_line broken_links
     end.

(** The three fixed lines of [main]. *)
Definition extracting_line : string := "[INFO] Extracting links from DOM...".

Definition no_links_line : string :=
  "[WARN] 0 checkable links found after rendering. "
  ++ "Inspect the HTML or relax filters.".

Definition starting_line (total : Z) : string :=
  "[INFO] Starting HTTP checks for " ++ str_int total ++ " link(s)...".


(** The requests of the check of one link: the HEAD, or the HEAD and then
    the GET, with the session's headers, following redirects, with a
    timeout of 10 seconds. *)
Definition requests_of_check (s : session) (link : string)
    (reqs : list request) : Prop :=
  reqs = [head_request s link 10]
  \/ reqs = [head_request s link 10; get_request s link 10].


(** The request of the raw fetch of [main], when it is made. *)
Definition page_requests (url : string) (no_js : bool) : list request :=
  if no_js then [get_request create_session url 15] else [].

(** A character other than the colon. *)
Definition not_colon (c : ascii) : bool := negb (Ascii.eqb ":" c).

(** ** Facts about the string primitives *)

Lemma prefix_app (p s : string) :
  String.prefix p s = true -> exists r, s = p ++ r.
Proof.
  revert s. induction p as [|c p IH]; intros s H.
  - exists s. reflexivity.
  - destruct s as [|d s]; simpl in H; [discriminate|].
    destruct (ascii_dec c d) as [->|]; [|discriminate].
    destruct (IH _ H) as [r ->]. exists r. reflexivity.
Qed.

Lemma rstrip_by_cons_keep (p : ascii -> bool) (c : ascii) (s : string) :
  p c = false -> rstrip_by p (String c s) = String c (rstrip_by p s).
Proof.
  intros Hc. simpl. destruct (rstrip_by p s); [rewrite Hc|]; reflexivity.
Qed.

Lemma rstrip_by_app_keep (p : ascii -> bool) (pre s : string) :
  forallb_string (fun c => negb (p c)) pre = true ->
  rstrip_by p (pre ++ s) = pre ++ rstrip_by p s.
Proof.
  induction pre as [|c pre IH]; intros H; [reflexivity|].
  simpl in H. apply andb_true_iff in H as [Hc Hpre].
  apply negb_true_iff in Hc.
  change (String c pre ++ s) with (String c (pre ++ s)).
  rewrite rstrip_by_cons_keep by assumption.
  rewrite IH by assumption. reflexivity.
Qed.

(** Stripping keeps a prefix that has no white space in it. *)
Lemma strip_keeps_prefix (c : ascii) (pre s : string) :
  forallb_string (fun c => negb (isspace c)) (String c pre) = true ->
  strip (String c pre ++ s) = String c pre ++ rstrip_by isspace s.
Proof.
  intros H. unfold strip.
  assert (Hc : isspace c = false).
  { simpl in H. apply andb_true_iff in H as [Hc _].
    now apply negb_true_iff in Hc. }
  change (String c pre ++ s) with (String c (pre ++ s)).
  cbn [lstrip_by]. rewrite Hc.
  change (String c (pre ++ s)) with (String c pre ++ s).
  now apply rstrip_by_app_keep.
Qed.

(** ** Facts about [is_http_url] *)

Lemma is_http_url_empty : is_http_url "" = Return false.
Proof. reflexivity. Qed.

(** A value that begins with a fragment mark has no scheme. *)
Lemma split_scheme_fragment (s : string) :
  fst (UrlParse.split_scheme (String "#" s)) = "".
Proof.
  unfold UrlParse.split_scheme, UrlParse.remove_unsafe. cbn.
  destruct (split_first ":" _) as [[a b]|]; reflexivity.
Qed.

Ltac scheme_of_literal_prefix :=
  unfold UrlParse.split_scheme, UrlParse.remove_unsafe; cbn; reflexivity.

Lemma split_scheme_mailto (s : string) :
  fst (UrlParse.split_scheme ("mailto:" ++ s)) = "mailto".
Proof. scheme_of_literal_prefix. Qed.

Lemma split_scheme_tel (s : string) :
  fst (UrlParse.split_scheme ("tel:" ++ s)) = "tel".
Proof. scheme_of_literal_prefix. Qed.

Lemma split_scheme_javascript (s : string) :
  fst (UrlParse.split_scheme ("javascript:" ++ s)) = "javascript".
Proof. scheme_of_literal_prefix. Qed.

Lemma split_scheme_data (s : string) :
  fst (UrlParse.split_scheme ("data:" ++ s)) = "data".
Proof. scheme_of_literal_prefix. Qed.

(** What [is_http_url] answers once the scheme of the stripped value is
    known. *)
Lemma is_http_url_by_scheme (href : string) :
  href <> "" ->
  is_http_url href =
    match netloc_error (snd (UrlParse.split_scheme (strip href))) with
    | Some msg => Raise (ValueError msg)
    | None =>
        let scheme := fst (UrlParse.split_scheme (strip href)) in
        Return ((scheme =? "http") || (scheme =? "https")
                || ((scheme =? "") && negb (startswith_any (strip href) rejected_prefixes)))
    end.
Proof.
  intros Hne. unfold is_http_url, urlparse_scheme.
  destruct (String.eqb_spec href ""); [contradiction|].
  destruct (UrlParse.split_scheme (strip href)) as [scheme rest]. cbn.
  destruct (netloc_error rest); [reflexivity|].
  destruct ((scheme =? "http") || (scheme =? "https")); [reflexivity|].
  destruct ((scheme =? "") && _); reflexivity.
Qed.

(** A value with one of the rejected prefixes is never accepted: the
    answer is [False], unless [urlparse] raises first. *)
Lemma is_http_url_rejected_prefix (href : string) :
  startswith_any href rejected_prefixes = true ->
  is_http_url href = Return false
  \/ exists msg, is_http_url href = Raise (ValueError msg).
Proof.
  intros H.
  assert (Hcases :
    exists r, href = "#" ++ r \/ href = "mailto:" ++ r \/ href = "tel:" ++ r
              \/ href = "javascript:" ++ r \/ href = "data:" ++ r).
  { unfold startswith_any, rejected_prefixes, startswith in H. cbn [existsb] in H.
    repeat (apply orb_true_iff in H as [H|H]); try discriminate;
      destruct (prefix_app _ _ H) as [r Hr]; exists r;
      first [ left; exact Hr
            | right; left; exact Hr
            | right; right; left; exact Hr
            | right; right; right; left; exact Hr
            | right; right; right; right; exact Hr ]. }
  destruct Hcases as [r Hr].
  assert (Hne : href <> "").
  { intros ->. destruct Hr as [Hr | [Hr | [Hr | [Hr | Hr]]]]; discriminate. }
  rewrite (is_http_url_by_scheme _ Hne).
  destruct (netloc_error _) as [msg|]; [right; eexists; reflexivity|left].
  destruct Hr as [-> | [-> | [-> | [-> | ->]]]];
    rewrite strip_keeps_prefix by reflexivity.
  - change ("#" ++ rstrip_by isspace r) with (String "#" (rstrip_by isspace r)).
    rewrite split_scheme_fragment.
    unfold startswith_any, startswith. cbn.
    destruct (rstrip_by isspace r); reflexivity.
  - rewrite split_scheme_mailto. reflexivity.
  - rewrite split_scheme_tel. reflexivity.
  - rewrite split_scheme_javascript. reflexivity.
  - rewrite split_scheme_data. reflexivity.
Qed.

(** ** Facts about sets and sorting *)

Lemma mem_In (x : string) (s : list string) :
  PySet.mem x s = true <-> In x s.
Proof.
  induction s as [|y s IH]; simpl; [split; [discriminate|intros []]|].
  rewrite orb_true_iff, IH, String.eqb_eq.
  split; (intros [H|H]; [left; congruence|right; exact H]).
Qed.

Lemma add_In (u x : string) (s : list string) :
  In u (PySet.add x s) <-> u = x \/ In u s.
Proof.
  unfold PySet.add. destruct (PySet.mem x s) eqn:E.
  - apply mem_In in E. split; [intros H; now right|].
    intros [->|H]; assumption.
  - rewrite in_app_iff. simpl. split.
    + intros [H|[H|[]]]; [now right|left; congruence].
    + intros [H|H]; [right; left; congruence|now left].
Qed.

Lemma add_NoDup (x : string) (s : list string) :
  NoDup s -> NoDup (PySet.add x s).
Proof.
  intros H. unfold PySet.add. destruct (PySet.mem x s) eqn:E; [assumption|].
  assert (Hx : ~ In x s).
  { intros Hin. apply mem_In in Hin. congruence. }
  clear E. induction H as [|y s Hy Hs IH]; simpl.
  - constructor; [intros []|constructor].
  - constructor.
    + rewrite in_app_iff. simpl. intros [?|[?|[]]]; [contradiction|].
      subst. apply Hx. now left.
    + apply IH. intros ?. apply Hx. now right.
Qed.

Lemma le_trans (a b c : string) : PySet.le a b -> PySet.le b c -> PySet.le a c.
Proof.
  unfold PySet.le, String.leb. intros Hab Hbc.
  destruct (String.compare a b) eqn:Eab; try discriminate.
  - apply String.compare_eq_iff in Eab. subst. exact Hbc.
  - destruct (String.compare b c) eqn:Ebc; try discriminate.
    + apply String.compare_eq_iff in Ebc. subst. now rewrite Eab.
    + apply String_as_OT.cmp_lt in Eab, Ebc.
      pose proof (String_as_OT.lt_trans _ _ _ Eab Ebc) as Hac.
      apply String_as_OT.cmp_lt in Hac. unfold String_as_OT.cmp in Hac.
      now rewrite Hac.
Qed.

Lemma le_neq_lt (a b : string) : PySet.le a b -> a <> b -> PySet.lt a b.
Proof.
  unfold PySet.le, PySet.lt, String.leb, String.ltb. intros Hle Hne.
  destruct (String.compare a b) eqn:E; try discriminate; [|reflexivity].
  apply String.compare_eq_iff in E. contradiction.
Qed.

Lemma insert_Permutation (x : string) (l : list string) :
  Permutation (PySet.insert x l) (x :: l).
Proof.
  induction l as [|y l IH]; simpl; [reflexivity|].
  destruct (String.leb x y); [reflexivity|].
  rewrite IH. apply perm_swap.
Qed.

Lemma sorted_Permutation (s : list string) : Permutation (PySet.sorted s) s.
Proof.
  induction s as [|x s IH]; simpl; [reflexivity|].
  rewrite insert_Permutation. now constructor.
Qed.

Lemma insert_StronglySorted (x : string) (l : list string) :
  StronglySorted PySet.le l -> StronglySorted PySet.le (PySet.insert x l).
Proof.
  induction 1 as [|y l Hl IH Hy]; simpl; [repeat constructor|].
  destruct (String.leb x y) eqn:E.
  - constructor; [constructor; assumption|].
    constructor; [exact E|].
    eapply Forall_impl; [|exact Hy]. intros z Hz.
    eapply le_trans; [exact E|exact Hz].
  - constructor; [assumption|].
    assert (Hyx : PySet.le y x).
    { destruct (String.leb_total x y) as [H'|H']; [congruence|exact H']. }
    eapply Permutation_Forall;
      [symmetry; apply insert_Permutation|].
    constructor; assumption.
Qed.

Lemma sorted_StronglySorted (s : list string) :
  StronglySorted PySet.le (PySet.sorted s).
Proof.
  induction s as [|x s IH]; simpl; [constructor|].
  now apply insert_StronglySorted.
Qed.

(** A sorted list without duplicates is strictly ascending. *)
Lemma StronglySorted_le_NoDup_lt (l : list string) :
  StronglySorted PySet.le l -> NoDup l -> StronglySorted PySet.lt l.
Proof.
  induction 1 as [|x l Hl IH Hx]; intros Hnd; [constructor|].
  inversion Hnd as [|? ? Hnotin Hnd']; subst.
  constructor; [now apply IH|].
  rewrite Forall_forall in *. intros y Hy.
  apply le_neq_lt; [now apply Hx|]. intros ->. contradiction.
Qed.

Lemma sorted_strictly_ascending (s : list string) :
  NoDup s -> StronglySorted PySet.lt (PySet.sorted s).
Proof.
  intros Hnd. apply StronglySorted_le_NoDup_lt.
  - apply sorted_StronglySorted.
  - eapply Permutation_NoDup; [|exact Hnd].
    symmetry. apply sorted_Permutation.
Qed.

(** Two ascending lists with the same elements are the same list, so
    [sorted] does not depend on the order in which the set is traversed. *)
Lemma StronglySorted_le_unique (l l' : list string) :
  StronglySorted PySet.le l -> StronglySorted PySet.le l' ->
  Permutation l l' -> l = l'.
Proof.
  intros Hl. revert l'. induction Hl as [|x l Hl IH Hx]; intros l' Hl' Hp.
  - apply Permutation_nil in Hp. now subst.
  - destruct Hl' as [|y l' Hl' Hy].
    + apply Permutation_sym, Permutation_nil in Hp. discriminate.
    + assert (Hxy : x = y).
      { rewrite Forall_forall in Hx, Hy.
        assert (Hin1 : In x (y :: l')).
        { eapply Permutation_in; [exact Hp|now left]. }
        assert (Hin2 : In y (x :: l)).
        { eapply Permutation_in; [symmetry; exact Hp|now left]. }
        destruct Hin1 as [->|Hin1]; [reflexivity|].
        destruct Hin2 as [->|Hin2]; [reflexivity|].
        apply String.leb_antisym; [now apply Hx|now apply Hy]. }
      subst y. f_equal. apply IH; [exact Hl'|].
      eapply Permutation_cons_inv. exact Hp.
Qed.

Lemma sorted_order_independent (s s' : list string) :
  Permutation s s' -> PySet.sorted s = PySet.sorted s'.
Proof.
  intros Hp. apply StronglySorted_le_unique; try apply sorted_StronglySorted.
  rewrite !sorted_Permutation. exact Hp.
Qed.

(** ** Facts about the extractor *)

(** The loop, when it ends without an exception: every href was
    classified, every accepted one was resolved, and the set holds the
    resolved URLs next to what it held before. *)
Lemma extract_loop_spec (base_url : string) (hrefs : list string) :
  forall links raw_count links' raw_count',
  extract_loop base_url hrefs links raw_count = Return (links', raw_count') ->
  raw_count' = (raw_count + Z.of_nat (List.length hrefs))%Z
  /\ (NoDup links -> NoDup links')
  /\ (forall h, In h hrefs ->
        is_http_url h = Return false
        \/ exists u, resolves_to base_url h u)
  /\ (forall u, In u links' <->
        In u links \/ exists h, In h hrefs /\ resolves_to base_url h u).
Proof.
  induction hrefs as [|h hrefs IH]; intros links n links' n' Hrun.
  - cbn in Hrun. injection Hrun as <- <-. repeat split.
    + cbn. lia.
    + intros H. exact H.
    + intros h [].
    + intros H. now left.
    + intros [H|(h & [] & _)]. exact H.
  - cbn [extract_loop] in Hrun. cbn [bind Monad_result] in Hrun.
    destruct (is_http_url h) as [[|]|e] eqn:Eh; cbn [negb] in Hrun;
      [|apply IH in Hrun|discriminate].
    + destruct (urljoin base_url h) as [u0|e] eqn:Eu; [|discriminate].
      apply IH in Hrun. destruct Hrun as (Hn & Hnd & Hall & Hin).
      repeat split.
      * cbn [List.length]. lia.
      * intros H. apply Hnd. now apply add_NoDup.
      * intros h' [<-|Hh']; [right; exists u0; split; assumption|now apply Hall].
      * intros Hu. apply Hin in Hu as [Hu|(h' & Hh' & Hres)].
        -- apply add_In in Hu as [->|Hu]; [right|now left].
           exists h. split; [now left|split; assumption].
        -- right. exists h'. split; [now right|assumption].
      * intros [Hu|(h' & [<-|Hh'] & Hres)]; apply Hin.
        -- left. apply add_In. now right.
        -- left. apply add_In. left.
           destruct Hres as [_ Hres]. congruence.
        -- right. exists h'. split; assumption.
    + destruct Hrun as (Hn & Hnd & Hall & Hin). repeat split.
      * cbn [List.length]. lia.
      * exact Hnd.
      * intros h' [<-|Hh']; [now left|now apply Hall].
      * intros Hu. apply Hin in Hu as [Hu|(h' & Hh' & Hres)]; [now left|].
        right. exists h'. split; [now right|assumption].
      * intros [Hu|(h' & [<-|Hh'] & Hres)]; apply Hin.
        -- now left.
        -- destruct Hres as [Hres _]. congruence.
        -- right. exists h'. split; assumption.
Qed.

(** [extract_links] returns exactly when its loop does, and then returns
    the sorted set after printing the two counts. *)
Lemma extract_links_inv (html base_url : string) (w w' : world) (l : list string) :
  extract_links html base_url w = (Return l, w') ->
  exists links raw_count,
    extract_loop base_url (anchor_hrefs html) [] 0 = Return (links, raw_count)
    /\ l = PySet.sorted links
    /\ sent w' = sent w
    /\ stdout w' =
         (stdout w
          ++ [("[INFO] Raw <a> tags with href found: " ++ str_int raw_count)%string;
              ("[INFO] Unique checkable HTTP(S) links: "
               ++ str_int (Z.of_nat (List.length links)))%string])%list.
Proof.
  unfold extract_links, lift. cbn [bind Monad_M].
  destruct (extract_loop base_url (anchor_hrefs html) [] 0) as [[links n]|e];
    [|discriminate].
  cbn. intros H. injection H as <- <-.
  exists links, n. cbn. rewrite <- app_assoc. repeat split.
Qed.

Lemma or_False_l (P : Prop) : False \/ P <-> P.
Proof. split; [intros [[]|H]; exact H|intros H; now right]. Qed.

Lemma extract_links_value (html base_url : string) (w : world) (l : list string) :
  fst (extract_links html base_url w) = Return l ->
  exists links raw_count,
    extract_loop base_url (anchor_hrefs html) [] 0 = Return (links, raw_count)
    /\ l = PySet.sorted links.
Proof.
  destruct (extract_links html base_url w) as [r w'] eqn:E. cbn. intros ->.
  destruct (extract_links_inv _ _ _ _ _ E) as (links & n & H1 & H2 & _).
  now exists links, n.
Qed.

(** The URLs returned are the resolved accepted hrefs, nothing else. *)
Lemma extract_links_members (html base_url : string) (w : world) (l : list string) :
  fst (extract_links html base_url w) = Return l ->
  forall u, In u l <->
    exists h, In h (anchor_hrefs html) /\ resolves_to base_url h u.
Proof.
  intros H u. destruct (extract_links_value _ _ _ _ H) as (links & n & Hloop & ->).
  apply extract_loop_spec in Hloop as (_ & _ & _ & Hin).
  rewrite <- (or_False_l (exists h, _)). change False with (In u []).
  rewrite <- Hin. split; apply Permutation_in;
    [|symmetry]; apply sorted_Permutation.
Qed.

(** When [extract_links] returns, no href made [is_http_url] or [urljoin]
    raise. *)
Lemma extract_links_classified (html base_url : string) (w : world) (l : list string) :
  fst (extract_links html base_url w) = Return l ->
  forall h, In h (anchor_hrefs html) ->
    is_http_url h = Return false \/ exists u, resolves_to base_url h u.
Proof.
  intros H. destruct (extract_links_value _ _ _ _ H) as (links & n & Hloop & ->).
  now apply extract_loop_spec in Hloop as (_ & _ & Hall & _).
Qed.

(** The list returned is strictly ascending. *)
Lemma extract_links_strictly_ascending (html base_url : string) (w : world)
    (l : list string) :
  fst (extract_links html base_url w) = Return l ->
  StronglySorted PySet.lt l.
Proof.
  intros H. destruct (extract_links_value _ _ _ _ H) as (links & n & Hloop & ->).
  apply extract_loop_spec in Hloop as (_ & Hnd & _ & _).
  apply sorted_strictly_ascending, Hnd. constructor.
Qed.

(** ** The extractor's properties *)

(** C2, amended: an empty href is classified as not navigable, and no URL
    that [extract_links] returns is derived from an empty href. *)
Theorem extract_links_skips_empty_href (html base_url : string) (w : world)
    (l : list string) :
  fst (extract_links html base_url w) = Return l ->
  is_http_url "" = Return false
  /\ forall u, In u l ->
       exists h, In h (anchor_hrefs html) /\ h <> "" /\ resolves_to base_url h u.
Proof.
  intros H. split; [reflexivity|]. intros u Hu.
  apply (extract_links_members _ _ _ _ H) in Hu as (h & Hh & Hres).
  exists h. repeat split; try assumption; try apply Hres.
  intros ->. destruct Hres as [Hacc _]. discriminate.
Qed.

(** C3: an anchor whose href begins with [#], [mailto:], [tel:],
    [javascript:] or [data:] is classified as not navigable; every URL that
    [extract_links] returns comes from an href without such a prefix; a
    page whose anchors all have such a prefix yields no link. *)
Theorem extract_links_excludes_rejected_prefixes (html base_url : string)
    (w : world) (l : list string) :
  fst (extract_links html base_url w) = Return l ->
  (forall h, In h (anchor_hrefs html) ->
     startswith_any h rejected_prefixes = true ->
     is_http_url h = Return false)
  /\ (forall u, In u l ->
       exists h, In h (anchor_hrefs html)
                 /\ startswith_any h rejected_prefixes = false
                 /\ resolves_to base_url h u)
  /\ ((forall h, In h (anchor_hrefs html) ->
        startswith_any h rejected_prefixes = true) ->
      l = []).
Proof.
  intros H.
  assert (Hrej : forall h, In h (anchor_hrefs html) ->
            startswith_any h rejected_prefixes = true ->
            is_http_url h = Return false).
  { intros h Hh Hpre.
    destruct (extract_links_classified _ _ _ _ H h Hh) as [Hf|(u & Hacc & _)];
      [exact Hf|].
    destruct (is_http_url_rejected_prefix h Hpre) as [Hf|(msg & Hf)]; congruence. }
  assert (Hmem : forall u, In u l ->
            exists h, In h (anchor_hrefs html)
                      /\ startswith_any h rejected_prefixes = false
                      /\ resolves_to base_url h u).
  { intros u Hu.
    apply (extract_links_members _ _ _ _ H) in Hu as (h & Hh & Hres).
    exists h. repeat split; try assumption; try apply Hres.
    destruct (startswith_any h rejected_prefixes) eqn:E; [|reflexivity].
    specialize (Hrej h Hh E). destruct Hres as [Hacc _]. congruence. }
  repeat split; try assumption.
  intros Hall. destruct l as [|u l]; [reflexivity|].
  destruct (Hmem u (or_introl eq_refl)) as (h & Hh & Hpre & _).
  rewrite (Hall h Hh) in Hpre. discriminate.
Qed.

(** C4: the list that [extract_links] returns is in ascending order of
    Python's string comparison and holds no URL twice. *)
Theorem extract_links_sorted_unique (html base_url : string) (w : world)
    (l : list string) :
  fst (extract_links html base_url w) = Return l ->
  StronglySorted PySet.le l /\ NoDup l.
Proof.
  intros H. destruct (extract_links_value _ _ _ _ H) as (links & n & Hloop & ->).
  apply extract_loop_spec in Hloop as (_ & Hnd & _ & _).
  split; [apply sorted_StronglySorted|].
  eapply Permutation_NoDup; [symmetry; apply sorted_Permutation|].
  apply Hnd. constructor.
Qed.

(** C7: for every href of the page that [is_http_url] accepts, [urljoin]
    resolves it against the base URL and the result is one of the URLs
    returned. *)
Theorem extract_links_resolves_accepted (html base_url : string) (w : world)
    (l : list string) (h : string) :
  fst (extract_links html base_url w) = Return l ->
  In h (anchor_hrefs html) ->
  is_http_url h = Return true ->
  exists u, urljoin base_url h = Return u /\ In u l.
Proof.
  intros H Hh Hacc.
  destruct (extract_links_classified _ _ _ _ H h Hh) as [Hf|(u & Hres)];
    [congruence|].
  exists u. split; [apply Hres|].
  apply (extract_links_members _ _ _ _ H). now exists h.
Qed.

(** ** Facts about the checker *)

(** All the runs of [check_link]: what it returns or raises and what it
    has sent, by the network's replies. *)
Lemma check_link_run (s : session) (url : string) (timeout : Z) (w : world) :
  check_link s url timeout w =
    let hd := head_request s url timeout in
    let gt := get_request s url timeout in
    match transport (sent w) hd with
    | Responds r =>
        (Return (http_verdict (status_code r) "HEAD"), after_request w hd)
    | Escapes msg => (Raise (ValueError msg), after_request w hd)
    | Fails _ =>
        match transport (sent w ++ [hd]) gt with
        | Responds r =>
            (Return (http_verdict (status_code r) "GET"),
             after_request (after_request w hd) gt)
        | Fails msg =>
            (Return (true, "Error: " ++ msg),
             after_request (after_request w hd) gt)
        | Escapes msg =>
            (Raise (ValueError msg), after_request (after_request w hd) gt)
        end
    end.
Proof.
  unfold check_link, try_except, session_head, session_get, send,
    head_request, get_request, http_verdict, after_request.
  cbn [bind catch raise ret Monad_M MonadExc_M sent stdout].
  destruct (transport (sent w) _) as [r|msg|msg].
  - cbn [status_code]. destruct (status_code r >=? 400)%Z eqn:E; [reflexivity|].
    assert (Hno : existsb (Z.eqb (status_code r)) [405; 403]%Z = false).
    { cbn. rewrite Z.geb_leb in E. apply Z.leb_gt in E.
      destruct (Z.eqb_spec (status_code r) 405), (Z.eqb_spec (status_code r) 403);
        first [lia | reflexivity]. }
    rewrite Hno. reflexivity.
  - cbn [is_RequestException sent stdout].
    destruct (transport _ _) as [r|msg2|msg2]; cbn.
    + destruct (status_code r >=? 400)%Z; reflexivity.
    + reflexivity.
    + reflexivity.
  - reflexivity.
Qed.

(** [check_link] prints nothing. *)
Lemma check_link_stdout (s : session) (url : string) (timeout : Z) (w : world) :
  stdout (snd (check_link s url timeout w)) = stdout w.
Proof.
  rewrite check_link_run. cbn zeta.
  destruct (transport (sent w) _); [|destruct (transport _ _)|]; reflexivity.
Qed.

(** ** The checker's properties *)

(** C1, what the code does: when the HEAD probe is answered with status
    403 or 405, [check_link] returns the broken verdict [HTTP <code> (HEAD)]
    from that answer and sends no GET: the only request sent is the HEAD. *)
Theorem check_link_trusts_head_403_405 (s : session) (url : string)
    (timeout : Z) (w : world) (r : response) :
  transport (sent w) (head_request s url timeout) = Responds r ->
  status_code r = 403%Z \/ status_code r = 405%Z ->
  fst (check_link s url timeout w)
    = Return (true, "HTTP " ++ str_int (status_code r) ++ " (HEAD)")
  /\ sent (snd (check_link s url timeout w))
    = (sent w ++ [head_request s url timeout])%list.
Proof.
  intros Hhead Hcode. rewrite check_link_run. cbn zeta. rewrite Hhead.
  unfold http_verdict. cbn.
  destruct Hcode as [-> | ->]; split; reflexivity.
Qed.

(** C5, what the code does: when the library lets an error that is not a
    [RequestException] escape from the HEAD, or from the GET after a HEAD
    that failed with a [RequestException], neither handler of [check_link]
    catches it: [check_link] raises that error and returns no pair. *)
Theorem check_link_raises_escaping_error (s : session) (url : string)
    (timeout : Z) (w : world) (msg : string) :
  transport (sent w) (head_request s url timeout) = Escapes msg
  \/ (exists m,
        transport (sent w) (head_request s url timeout) = Fails m
        /\ transport (sent w ++ [head_request s url timeout])
                     (get_request s url timeout) = Escapes msg) ->
  fst (check_link s url timeout w) = Raise (ValueError msg).
Proof.
  rewrite check_link_run. cbn zeta.
  intros [Hh|(m & Hh & Hg)]; rewrite Hh; [|rewrite Hg]; reflexivity.
Qed.

(** C9: when the HEAD probe is answered with a status below 400 (so
    neither 403 nor 405), [check_link] returns [(False, "HTTP <code> (HEAD)")]
    and the HEAD is the only request it has sent. *)
Theorem check_link_head_success_single_request (s : session) (url : string)
    (timeout : Z) (w : world) (r : response) :
  transport (sent w) (head_request s url timeout) = Responds r ->
  (status_code r < 400)%Z ->
  status_code r <> 403%Z ->
  status_code r <> 405%Z ->
  fst (check_link s url timeout w)
    = Return (false, "HTTP " ++ str_int (status_code r) ++ " (HEAD)")
  /\ sent (snd (check_link s url timeout w))
    = (sent w ++ [head_request s url timeout])%list.
Proof.
  intros Hhead Hlt _ _. rewrite check_link_run. cbn zeta. rewrite Hhead.
  unfold http_verdict. cbn.
  rewrite Z.geb_leb, (proj2 (Z.leb_gt _ _) Hlt). split; reflexivity.
Qed.

(** ** Facts about the orchestrator *)

Lemma print_run (line : string) (w : world) :
  print line w = (Return tt, mkWorld (sent w) (stdout w ++ [line])).
Proof. reflexivity. Qed.

(** One turn of the loop of [main]. *)
Lemma check_loop_cons (s : session) (total i : Z) (link : string)
    (rest : list string) (acc : list (string * string)) (w : world) :
  check_loop s total i (link :: rest) acc w =
    match check_link s link 10 (snd (print (check_line total i link) w)) with
    | (Return v, w2) =>
        check_loop s total (i + 1) rest
          (if fst v then (acc ++ [(link, snd v)])%list else acc)
          (snd (print (verdict_line v) w2))
    | (Raise e, w2) => (Raise e, w2)
    end.
Proof.
  cbn [check_loop bind Monad_M]. rewrite print_run. cbn [snd].
  unfold check_line.
  destruct (check_link s link 10 _) as [[[b info]|e] w2]; [|reflexivity].
  destruct b; reflexivity.
Qed.

(** The loop of [main], when it ends without an exception: it returns
    the broken entries of its results after those it started with, and has
    printed two lines per link. *)
Lemma check_loop_run (s : session) (total : Z) (links : list string) :
  forall i acc w b,
  fst (check_loop s total i links acc w) = Return b ->
  let results := link_results s total i links w in
  b = (acc ++ broken_of results)%list
  /\ map fst results = links
  /\ stdout (snd (check_loop s total i links acc w))
     = (stdout w ++ progress_lines total i results)%list.
Proof.
  induction links as [|link rest IH]; intros i acc w b; cbn zeta.
  - cbn. intros H. injection H as <-. rewrite !app_nil_r. repeat split.
  - rewrite check_loop_cons. cbn [link_results].
    set (w1 := snd (print (check_line total i link) w)).
    pose proof (check_link_stdout s link 10 w1) as Hout.
    destruct (check_link s link 10 w1) as [[v|e] w2];
      [|intros H; discriminate H].
    cbn [snd] in Hout. intros Hret.
    specialize (IH (i + 1)%Z
                  (if fst v then (acc ++ [(link, snd v)])%list else acc)
                  (snd (print (verdict_line v) w2)) b Hret).
    cbn zeta in IH. destruct IH as (IH1 & IH2 & IH3).
    rewrite IH1, IH3. cbn [map fst progress_lines]. rewrite IH2.
    rewrite print_run. cbn [snd stdout]. rewrite Hout. unfold w1.
    rewrite print_run. cbn [snd stdout].
    unfold broken_of. cbn [filter]. unfold verdict_broken at 2. cbn [fst snd].
    destruct (fst v); cbn [map fst snd]; rewrite <- ?app_assoc; repeat split.
Qed.

Lemma print_broken_run (broken_links : list (string * string)) :
  forall w,
  print_broken broken_links w
  = (Return tt, mkWorld (sent w) (stdout w ++ map item_line broken_links)).
Proof.
  induction broken_links as [|[link info] rest IH]; intros w.
  - cbn. rewrite app_nil_r. now destruct w.
  - cbn [print_broken bind Monad_M]. rewrite print_run, IH. cbn.
    rewrite <- app_assoc. reflexivity.
Qed.

Lemma print_summary_run (total : Z) (broken_links : list (string * string))
    (w : world) :
  print_summary total broken_links w
  = (Return tt,
     mkWorld (sent w)
       (stdout w
        ++ summary_lines total (Z.of_nat (List.length broken_links)) broken_links)).
Proof.
  unfold print_summary, summary_lines. cbn [bind Monad_M].
  rewrite !print_run. cbn [sent stdout].
  destruct broken_links as [|b rest].
  - cbn. rewrite <- !app_assoc. reflexivity.
  - cbn [bind Monad_M]. rewrite print_run, print_broken_run. cbn [sent stdout].
    rewrite <- !app_assoc. reflexivity.
Qed.

(** [main], by what its steps return or raise. *)
Lemma main_run (url : string) (no_js : bool) (w : world) :
  main url no_js w =
    match fetch_html create_session url no_js w with
    | (Raise e, w0) => (Raise e, w0)
    | (Return html, w0) =>
        match extract_links html url (snd (print extracting_line w0)) with
        | (Raise e, w1) => (Raise e, w1)
        | (Return [], w1) => (Raise (SystemExit 0), snd (print no_links_line w1))
        | (Return links, w1) =>
            let total := Z.of_nat (List.length links) in
            let w2 := snd (print (starting_line total) w1) in
            match check_loop create_session total 1 links [] w2 with
            | (Raise e, w3) => (Raise e, w3)
            | (Return broken_links, w3) =>
                (Return tt,
                 mkWorld (sent w3)
                   (stdout w3
                    ++ summary_lines total
                         (Z.of_nat (List.length broken_links)) broken_links))
            end
        end
    end.
Proof.
  unfold main. cbn [bind Monad_M].
  destruct (fetch_html create_session url no_js w) as [[html|e] w0];
    [|reflexivity].
  rewrite print_run. cbn [snd]. unfold extracting_line. rewrite print_run.
  cbn [snd].
  destruct (extract_links html url _) as [[links|e] w1]; [|reflexivity].
  destruct links as [|l ls]; [reflexivity|].
  cbn zeta. cbn [bind Monad_M]. rewrite print_run. cbn [snd].
  unfold starting_line. rewrite print_run. cbn [snd].
  match goal with
  | |- context [check_loop create_session ?t 1 (l :: ls) [] ?w2] =>
      destruct (check_loop create_session t 1 (l :: ls) [] w2) as [[b|e] w3]
  end; [|reflexivity].
  apply print_summary_run.
Qed.



(** A filter of a strictly ascending list of results is strictly
    ascending. *)
Lemma broken_of_ascending (results : list link_result) :
  StronglySorted PySet.lt (map fst results) ->
  StronglySorted PySet.lt (map fst (broken_of results)).
Proof.
  unfold broken_of. rewrite map_map. cbn [fst].
  induction results as [|r rs IH]; cbn [map filter]; intros H; [constructor|].
  inversion H as [|? ? Hrs Hr]; subst.
  destruct (verdict_broken r); cbn [map]; [|now apply IH].
  constructor; [now apply IH|].
  rewrite Forall_forall in *. intros u Hu. apply Hr.
  rewrite in_map_iff in *. destruct Hu as (x & <- & Hx).
  exists x. split; [reflexivity|]. now apply filter_In in Hx.
Qed.

Lemma broken_of_length (results : list link_result) :
  List.length (broken_of results) = List.length (filter verdict_broken results)
  /\ (List.length (broken_of results) <= List.length results)%nat.
Proof.
  unfold broken_of. rewrite length_map. split; [reflexivity|].
  apply filter_length_le.
Qed.

(** A run of [main] that returns went through every step: the page was
    fetched, [extract_links] returned links, the loop produced its results
    from the world reached after the starting line, and the output is what
    was printed until then, the lines of the loop and the summary block. *)
Lemma main_returns_inv (url : string) (no_js : bool) (w : world) :
  fst (main url no_js w) = Return tt ->
  exists html w0 links w1,
    fetch_html create_session url no_js w = (Return html, w0)
    /\ extract_links html url (snd (print extracting_line w0)) = (Return links, w1)
    /\ links <> []
    /\ let total := Z.of_nat (List.length links) in
       let w2 := snd (print (starting_line total) w1) in
       let results := link_results create_session total 1 links w2 in
       map fst results = links
       /\ stdout (snd (main url no_js w))
          = (stdout w2 ++ progress_lines total 1 results
             ++ summary_lines total (Z.of_nat (List.length (broken_of results)))
                  (broken_of results))%list.
Proof.
  rewrite main_run.
  destruct (fetch_html create_session url no_js w) as [[html|e] w0];
    [|discriminate].
  destruct (extract_links html url (snd (print extracting_line w0)))
    as [[links|e] w1] eqn:E; [|discriminate].
  destruct links as [|l ls]; [discriminate|]. cbn zeta.
  set (total := Z.of_nat (List.length (l :: ls))).
  set (w2 := snd (print (starting_line total) w1)).
  pose proof (check_loop_run create_session total (l :: ls) 1 [] w2) as H.
  destruct (check_loop create_session total 1 (l :: ls) [] w2)
    as [[b|e] w3]; [|discriminate].
  intros _. cbn [fst snd] in H. destruct (H b eq_refl) as (Hb & Hres & Hout).
  exists html, w0, (l :: ls), w1.
  split; [reflexivity|]. split; [exact E|]. split; [discriminate|].
  cbn zeta. fold total. fold w2.
  split; [exact Hres|]. cbn [snd stdout]. rewrite Hout, Hb, <- app_assoc.
  reflexivity.
Qed.

(** ** The orchestrator's properties *)

(** C6: in a run of [main] that reaches the summary, the broken count
    printed is the number of results whose verdict is broken; it is the
    length of the broken-link list that is printed, and it is at most the
    number of links checked. *)
Theorem main_summary_counts (url : string) (no_js : bool) (w : world) :
  fst (main url no_js w) = Return tt ->
  exists html w0 links w1,
    fetch_html create_session url no_js w = (Return html, w0)
    /\ extract_links html url (snd (print extracting_line w0)) = (Return links, w1)
    /\ let total := Z.of_nat (List.length links) in
       let w2 := snd (print (starting_line total) w1) in
       let results := link_results create_session total 1 links w2 in
       let broken_links := broken_of results in
       map fst results = links
       /\ stdout (snd (main url no_js w))
          = (stdout w2 ++ progress_lines total 1 results
             ++ summary_lines total
                  (Z.of_nat (List.length (filter verdict_broken results)))
                  broken_links)%list
       /\ List.length (map item_line broken_links)
          = List.length (filter verdict_broken results)
       /\ (List.length (filter verdict_broken results) <= List.length links)%nat.
Proof.
  intros H.
  destruct (main_returns_inv _ _ _ H)
    as (html & w0 & links & w1 & Hf & Hl & _ & Hres & Hout).
  exists html, w0, links, w1. split; [exact Hf|]. split; [exact Hl|]. cbn zeta.
  set (total := Z.of_nat (List.length links)) in *.
  set (w2 := snd (print (starting_line total) w1)) in *.
  destruct (broken_of_length (link_results create_session total 1 links w2))
    as [Hlen Hle].
  repeat split.
  - exact Hres.
  - rewrite Hout, Hlen. reflexivity.
  - rewrite length_map. exact Hlen.
  - apply (f_equal (@List.length string)) in Hres.
    rewrite length_map in Hres. unfold link_result in *. lia.
Qed.

(** C10: in a run of [main] that reaches the summary, the broken-link list
    that is printed is the broken part of the results in the order of the
    checks, which is the order of the links; the links are strictly
    ascending, and so are the links of the printed list. *)
Theorem main_broken_links_in_check_order (url : string) (no_js : bool)
    (w : world) :
  fst (main url no_js w) = Return tt ->
  exists html w0 links w1,
    fetch_html create_session url no_js w = (Return html, w0)
    /\ extract_links html url (snd (print extracting_line w0)) = (Return links, w1)
    /\ let total := Z.of_nat (List.length links) in
       let w2 := snd (print (starting_line total) w1) in
       let results := link_results create_session total 1 links w2 in
       let broken_links := broken_of results in
       map fst results = links
       /\ stdout (snd (main url no_js w))
          = (stdout w2 ++ progress_lines total 1 results
             ++ summary_lines total (Z.of_nat (List.length broken_links))
                  broken_links)%list
       /\ StronglySorted PySet.lt links
       /\ StronglySorted PySet.lt (map fst broken_links).
Proof.
  intros H.
  destruct (main_returns_inv _ _ _ H)
    as (html & w0 & links & w1 & Hf & Hl & _ & Hres & Hout).
  exists html, w0, links, w1. split; [exact Hf|]. split; [exact Hl|]. cbn zeta.
  assert (Hasc : StronglySorted PySet.lt links).
  { apply (extract_links_strictly_ascending html url
             (snd (print extracting_line w0))).
    rewrite Hl. reflexivity. }
  repeat split; try assumption.
  apply broken_of_ascending. rewrite Hres. exact Hasc.
Qed.



(** ** More about the string primitives *)

Lemma lstrip_by_all (p : ascii -> bool) (s : string) :
  forallb_string p s = true -> lstrip_by p s = "".
Proof.
  induction s as [|c s IH]; cbn; [reflexivity|].
  intros H. apply andb_true_iff in H as [Hc Hs]. rewrite Hc. now apply IH.
Qed.

(** What [lstrip] leaves is empty or begins with a character it keeps. *)
Lemma lstrip_by_head (p : ascii -> bool) (s : string) :
  lstrip_by p s = ""
  \/ exists c t, lstrip_by p s = String c t /\ p c = false.
Proof.
  induction s as [|c s IH]; cbn; [now left|].
  destruct (p c) eqn:E; [exact IH|]. right. now exists c, s.
Qed.

Lemma rstrip_by_idempotent (p : ascii -> bool) (s : string) :
  rstrip_by p (rstrip_by p s) = rstrip_by p s.
Proof.
  induction s as [|c s IH]; [reflexivity|].
  cbn [rstrip_by]. destruct (rstrip_by p s) as [|d r] eqn:E.
  - destruct (p c) eqn:Ec; [reflexivity|]. cbn. now rewrite Ec.
  - cbn [rstrip_by]. cbn [rstrip_by] in IH. rewrite IH. reflexivity.
Qed.

(** [s.strip().strip() == s.strip()] *)
Lemma strip_idempotent (s : string) : strip (strip s) = strip s.
Proof.
  unfold strip.
  destruct (lstrip_by_head isspace s) as [E|(c & t & E & Hc)]; rewrite E.
  - reflexivity.
  - rewrite rstrip_by_cons_keep by exact Hc. cbn [lstrip_by]. rewrite Hc.
    rewrite <- (rstrip_by_cons_keep isspace c t Hc).
    apply rstrip_by_idempotent.
Qed.

Lemma strip_all_space (s : string) :
  forallb_string isspace s = true -> strip s = "".
Proof. intros H. unfold strip. now rewrite lstrip_by_all. Qed.

Lemma forallb_string_app (p : ascii -> bool) (s t : string) :
  forallb_string p (s ++ t) = forallb_string p s && forallb_string p t.
Proof.
  induction s as [|c s IH]; cbn; [reflexivity|].
  now rewrite IH, andb_assoc.
Qed.

Lemma forallb_string_lstrip_by (p q : ascii -> bool) (s : string) :
  forallb_string p s = true -> forallb_string p (lstrip_by q s) = true.
Proof.
  induction s as [|c s IH]; cbn; [reflexivity|].
  intros H. destruct (q c); [|exact H].
  apply andb_true_iff in H as [_ Hs]. now apply IH.
Qed.

Lemma forallb_string_remove_char (p : ascii -> bool) (c : ascii) (s : string) :
  forallb_string p s = true -> forallb_string p (remove_char c s) = true.
Proof.
  induction s as [|d s IH]; cbn; [reflexivity|].
  intros H. apply andb_true_iff in H as [Hd Hs].
  destruct (Ascii.eqb c d); cbn; [|rewrite Hd]; now apply IH.
Qed.

Lemma split_first_absent (s : string) :
  forallb_string not_colon s = true -> split_first ":" s = None.
Proof.
  induction s as [|d s IH]; cbn [split_first forallb_string append]; [reflexivity|].
  intros H. apply andb_true_iff in H as [Hd Hs]. unfold not_colon in Hd.
  apply negb_true_iff in Hd. rewrite Hd, (IH Hs). reflexivity.
Qed.

Lemma split_first_app (pre post : string) :
  forallb_string not_colon pre = true ->
  split_first ":" (pre ++ String ":" post) = Some (pre, post).
Proof.
  induction pre as [|d pre IH]; cbn [split_first forallb_string append]; [reflexivity|].
  intros H. apply andb_true_iff in H as [Hd Hs]. unfold not_colon in Hd.
  apply negb_true_iff in Hd. rewrite Hd, (IH Hs). reflexivity.
Qed.

(** A reference without a colon has no scheme. *)
Lemma split_scheme_colon_free (s : string) :
  forallb_string not_colon s = true -> fst (UrlParse.split_scheme s) = "".
Proof.
  intros H. unfold UrlParse.split_scheme, UrlParse.remove_unsafe.
  rewrite split_first_absent; [reflexivity|].
  repeat apply forallb_string_remove_char.
  now apply forallb_string_lstrip_by.
Qed.

Lemma forallb_string_impl (p q : ascii -> bool) (s : string) :
  (forall c, p c = true -> q c = true) ->
  forallb_string p s = true -> forallb_string q s = true.
Proof.
  intros Hpq. induction s as [|c s IH]; cbn; [reflexivity|].
  intros H. apply andb_true_iff in H as [Hc Hs].
  rewrite (Hpq _ Hc). now apply IH.
Qed.

Lemma remove_char_app_keep (c : ascii) (pre s : string) :
  forallb_string (fun d => negb (Ascii.eqb c d)) pre = true ->
  remove_char c (pre ++ s) = pre ++ remove_char c s.
Proof.
  induction pre as [|d pre IH]; cbn [forallb_string append remove_char];
    [reflexivity|].
  intros H. apply andb_true_iff in H as [Hd Hs].
  apply negb_true_iff in Hd. rewrite Hd, (IH Hs). reflexivity.
Qed.

(** A scheme character is none of the characters [urlsplit] removes, and
    it is not the colon. *)
Lemma scheme_char_kept (c d : ascii) :
  UrlParse.scheme_char d = true ->
  In c [ascii_of_nat 9; ascii_of_nat 13; ascii_of_nat 10; ":"%char] ->
  negb (Ascii.eqb c d) = true.
Proof.
  intros Hd Hc.
  destruct d as [[] [] [] [] [] [] [] []]; try discriminate Hd;
    destruct Hc as [<-|[<-|[<-|[<-|[]]]]]; reflexivity.
Qed.

Lemma alpha_is_scheme_char (c : ascii) :
  is_ascii_alpha c = true -> UrlParse.scheme_char c = true.
Proof.
  unfold is_ascii_alpha, UrlParse.scheme_char. intros ->. reflexivity.
Qed.

Lemma alpha_not_stripped (c : ascii) :
  is_ascii_alpha c = true -> UrlParse.c0_control_or_space c = false.
Proof.
  destruct c as [[] [] [] [] [] [] [] []]; try discriminate; reflexivity.
Qed.

(** [urlsplit] on a URL that begins with a well-formed scheme: the scheme
    is the part before the first colon, in lower case. *)
Lemma split_scheme_valid (c : ascii) (pre rest : string) :
  is_ascii_alpha c = true ->
  forallb_string UrlParse.scheme_char pre = true ->
  UrlParse.split_scheme (String c pre ++ String ":" rest)
  = (lower (String c pre), UrlParse.remove_unsafe rest).
Proof.
  intros Hc Hpre.
  assert (Hall : forallb_string UrlParse.scheme_char (String c pre) = true).
  { cbn. now rewrite (alpha_is_scheme_char _ Hc). }
  assert (Hkeep : forall x,
            In x [ascii_of_nat 9; ascii_of_nat 13; ascii_of_nat 10; ":"%char] ->
            forallb_string (fun d => negb (Ascii.eqb x d)) (String c pre) = true).
  { intros x Hx. eapply forallb_string_impl; [|exact Hall].
    intros d Hd. now apply scheme_char_kept. }
  unfold UrlParse.split_scheme.
  change (String c pre ++ String ":" rest) with (String c (pre ++ String ":" rest)).
  cbn [lstrip_by]. rewrite (alpha_not_stripped _ Hc).
  change (String c (pre ++ String ":" rest)) with (String c pre ++ String ":" rest).
  unfold UrlParse.remove_unsafe.
  rewrite (remove_char_app_keep (ascii_of_nat 9)) by (apply Hkeep; cbn; auto).
  cbn [remove_char]. change (Ascii.eqb (ascii_of_nat 9) ":") with false. cbv iota.
  rewrite (remove_char_app_keep (ascii_of_nat 13)) by (apply Hkeep; cbn; auto).
  cbn [remove_char]. change (Ascii.eqb (ascii_of_nat 13) ":") with false. cbv iota.
  rewrite (remove_char_app_keep (ascii_of_nat 10)) by (apply Hkeep; cbn; auto).
  cbn [remove_char]. change (Ascii.eqb (ascii_of_nat 10) ":") with false. cbv iota.
  rewrite split_first_app by (apply (Hkeep ":"%char); cbn; auto).
  cbn [append UrlParse.first_is_alpha String.eqb negb andb].
  rewrite Hc. cbn [andb]. rewrite Hall. reflexivity.
Qed.

(** ** More about [is_http_url] *)

(** X1: A value of white space only, not empty: [is_http_url] strips it to the
    empty reference and accepts it as a relative URL. *)
Theorem is_http_url_blank_accepted (href : string) :
  href <> "" ->
  forallb_string isspace href = true ->
  netloc_error "" = None ->
  is_http_url href = Return true.
Proof.
  intros Hne Hsp Hnet. rewrite (is_http_url_by_scheme _ Hne).
  rewrite (strip_all_space _ Hsp). cbn. rewrite Hnet. reflexivity.
Qed.

(** X2: White space around a value does not change its classification. *)
Theorem is_http_url_strip_invariant (href : string) :
  strip href <> "" ->
  is_http_url (strip href) = is_http_url href.
Proof.
  intros Hs.
  assert (Hne : href <> "") by (intros ->; now apply Hs).
  rewrite (is_http_url_by_scheme _ Hne), (is_http_url_by_scheme _ Hs).
  rewrite strip_idempotent. reflexivity.
Qed.

(** X3: A value with a well-formed scheme is accepted exactly when the scheme,
    in lower case, is [http] or [https], whatever follows the colon. *)
Theorem is_http_url_scheme_decides (href : string) (c : ascii) (pre rest : string) :
  strip href = String c pre ++ String ":" rest ->
  is_ascii_alpha c = true ->
  forallb_string UrlParse.scheme_char pre = true ->
  is_http_url href
    = Return ((lower (String c pre) =? "http") || (lower (String c pre) =? "https"))
  \/ exists msg, is_http_url href = Raise (ValueError msg).
Proof.
  intros Hs Hc Hpre.
  assert (Hne : href <> "") by (intros ->; discriminate Hs).
  rewrite (is_http_url_by_scheme _ Hne), Hs, (split_scheme_valid _ _ _ Hc Hpre).
  cbn [fst snd].
  destruct (netloc_error _) as [msg|]; [right; now exists msg|left].
  cbn zeta. cbn [lower map_string String.eqb andb]. rewrite orb_false_r.
  reflexivity.
Qed.

(** X4: A value without a colon that does not begin with [#] is accepted as a
    relative URL. *)
Theorem is_http_url_colon_free_accepted (href : string) :
  href <> "" ->
  forallb_string not_colon (strip href) = true ->
  startswith (strip href) "#" = false ->
  is_http_url href = Return true
  \/ exists msg, is_http_url href = Raise (ValueError msg).
Proof.
  intros Hne Hcol Hfrag.
  rewrite (is_http_url_by_scheme _ Hne).
  destruct (netloc_error _) as [msg|]; [right; now exists msg|left].
  rewrite (split_scheme_colon_free _ Hcol). cbn zeta.
  assert (Hrej : startswith_any (strip href) rejected_prefixes = false).
  { unfold startswith_any, rejected_prefixes. cbn [existsb]. rewrite Hfrag.
    assert (Hno : forall p, forallb_string not_colon p = false ->
                    String.prefix p (strip href) = false).
    { intros p Hp. destruct (String.prefix p (strip href)) eqn:E; [|reflexivity].
      apply prefix_app in E as [r E].
      rewrite E, forallb_string_app, Hp in Hcol. discriminate. }
    unfold startswith. rewrite !Hno by reflexivity. reflexivity. }
  rewrite Hrej. reflexivity.
Qed.

(** ** More about the extractor *)

Lemma add_length (x : string) (s : list string) :
  (List.length (PySet.add x s) <= S (List.length s))%nat.
Proof.
  unfold PySet.add. destruct (PySet.mem x s); [lia|].
  rewrite length_app. cbn. lia.
Qed.

Lemma extract_loop_length (base_url : string) (hrefs : list string) :
  forall links raw_count links' raw_count',
  extract_loop base_url hrefs links raw_count = Return (links', raw_count') ->
  (List.length links' <= List.length links + List.length hrefs)%nat.
Proof.
  induction hrefs as [|h hrefs IH]; intros links n links' n' Hrun.
  - cbn in Hrun. injection Hrun as <- <-. lia.
  - cbn [extract_loop] in Hrun. cbn [bind Monad_result] in Hrun.
    destruct (is_http_url h) as [[|]|e]; cbn [negb] in Hrun; [| |discriminate].
    + destruct (urljoin base_url h) as [u|e]; [|discriminate].
      apply IH in Hrun. pose proof (add_length u links). cbn [List.length]. lia.
    + apply IH in Hrun. cbn [List.length]. lia.
Qed.

(** An href on which [is_http_url] raises makes the loop raise. *)
Lemma extract_loop_raises (base_url : string) (hrefs : list string)
    (h : string) (e : exn) :
  In h hrefs -> is_http_url h = Raise e ->
  forall links raw_count,
  exists e', extract_loop base_url hrefs links raw_count = Raise e'.
Proof.
  intros Hin Hraise. induction hrefs as [|h0 hrefs IH]; [destruct Hin|].
  intros links n. cbn [extract_loop bind Monad_result].
  destruct Hin as [->|Hin].
  - rewrite Hraise. now exists e.
  - destruct (is_http_url h0) as [[|]|e0]; cbn [negb].
    + destruct (urljoin base_url h0) as [u|e0]; [apply (IH Hin)|now exists e0].
    + apply (IH Hin).
    + now exists e0.
Qed.

(** X5: What [extract_links] reports: it sends nothing; the first count it
    prints is the number of anchors with an href, the second is the length
    of the list it returns, which is at most the first. *)
Theorem extract_links_reports_counts (html base_url : string) (w w' : world)
    (l : list string) :
  extract_links html base_url w = (Return l, w') ->
  sent w' = sent w
  /\ stdout w'
     = (stdout w
        ++ [("[INFO] Raw <a> tags with href found: "
             ++ str_int (Z.of_nat (List.length (anchor_hrefs html))))%string;
            ("[INFO] Unique checkable HTTP(S) links: "
             ++ str_int (Z.of_nat (List.length l)))%string])%list
  /\ (List.length l <= List.length (anchor_hrefs html))%nat.
Proof.
  intros H.
  destruct (extract_links_inv _ _ _ _ _ H) as (links & n & Hloop & -> & Hs & Ho).
  pose proof (extract_loop_length _ _ _ _ _ _ Hloop) as Hlen.
  apply extract_loop_spec in Hloop as (Hn & _).
  rewrite (Permutation_length (sorted_Permutation links)).
  subst n. cbn in Hlen. repeat split; [exact Hs|exact Ho|exact Hlen].
Qed.

Lemma lt_le (a b : string) : PySet.lt a b -> PySet.le a b.
Proof.
  unfold PySet.lt, PySet.le, String.ltb, String.leb.
  destruct (String.compare a b); intros H; first [reflexivity | discriminate].
Qed.

Lemma lt_irrefl (a : string) : ~ PySet.lt a a.
Proof.
  unfold PySet.lt, String.ltb.
  pose proof (proj2 (String_as_OT.cmp_eq a a) eq_refl) as E.
  unfold String_as_OT.cmp in E. rewrite E. discriminate.
Qed.

(** Two strictly ascending lists with the same elements are equal. *)
Lemma StronglySorted_lt_unique (l l' : list string) :
  StronglySorted PySet.lt l -> StronglySorted PySet.lt l' ->
  (forall u, In u l <-> In u l') -> l = l'.
Proof.
  intros Hl Hl' Hsame.
  assert (Hnd : forall k, StronglySorted PySet.lt k -> NoDup k).
  { induction 1 as [|x k Hk IH Hx]; constructor; [|exact IH].
    intros Hin. rewrite Forall_forall in Hx. exact (lt_irrefl x (Hx x Hin)). }
  assert (Hle : forall k, StronglySorted PySet.lt k -> StronglySorted PySet.le k).
  { induction 1 as [|x k Hk IH Hx]; constructor; [exact IH|].
    eapply Forall_impl; [|exact Hx]. intros y. apply lt_le. }
  apply StronglySorted_le_unique; [now apply Hle|now apply Hle|].
  apply NoDup_Permutation; [now apply Hnd|now apply Hnd|exact Hsame].
Qed.

(** X6: The list returned depends on the set of hrefs of the page only: two
    pages with the same hrefs, in any order and any number of times, give
    the same links. *)
Theorem extract_links_depends_on_href_set (html html' base_url : string)
    (w w' : world) (l l' : list string) :
  fst (extract_links html base_url w) = Return l ->
  fst (extract_links html' base_url w') = Return l' ->
  (forall h, In h (anchor_hrefs html) <-> In h (anchor_hrefs html')) ->
  l = l'.
Proof.
  intros H H' Hsame.
  apply StronglySorted_lt_unique.
  - exact (extract_links_strictly_ascending _ _ _ _ H).
  - exact (extract_links_strictly_ascending _ _ _ _ H').
  - intros u. rewrite (extract_links_members _ _ _ _ H u),
      (extract_links_members _ _ _ _ H' u).
    split; intros (h & Hh & Hres); exists h; (split; [now apply Hsame|exact Hres]).
Qed.

(** X7: An href on which [urlparse] raises ends the run: once the page is
    fetched, [main] raises out of [extract_links], having printed nothing
    after the extraction line and checked no link. *)
Theorem main_aborts_on_href_error (url : string) (no_js : bool) (w w0 : world)
    (html h : string) (e : exn) :
  fetch_html create_session url no_js w = (Return html, w0) ->
  In h (anchor_hrefs html) ->
  is_http_url h = Raise e ->
  exists e', main url no_js w = (Raise e', snd (print extracting_line w0)).
Proof.
  intros Hfetch Hin Hraise.
  destruct (extract_loop_raises url _ _ _ Hin Hraise [] 0%Z) as [e' He'].
  exists e'. rewrite main_run, Hfetch.
  unfold extract_links, lift. cbn [bind Monad_M]. rewrite He'. reflexivity.
Qed.

(** ** More about the checker *)

(** The requests of one check: the HEAD, and the GET exactly when the
    HEAD failed with a [RequestException]. *)
Lemma check_link_sent (s : session) (url : string) (timeout : Z) (w : world) :
  sent (snd (check_link s url timeout w))
  = (sent w
     ++ head_request s url timeout
        :: match transport (sent w) (head_request s url timeout) with
           | Responds _ => []
           | Fails _ => [get_request s url timeout]
           | Escapes _ => []
           end)%list.
Proof.
  rewrite check_link_run. cbn zeta.
  destruct (transport (sent w) _); [reflexivity| |reflexivity].
  destruct (transport _ _); cbn; rewrite <- app_assoc; reflexivity.
Qed.

(** X8: When the HEAD fails in the transport and the GET is answered,
    [check_link] returns the verdict of the GET answer: broken exactly for
    a status of 400 or more, with [HTTP <code> (GET)]; both requests were
    sent, the HEAD first. *)
Theorem check_link_falls_back_to_get (s : session) (url : string)
    (timeout : Z) (w : world) (msg : string) (r : response) :
  transport (sent w) (head_request s url timeout) = Fails msg ->
  transport (sent w ++ [head_request s url timeout]) (get_request s url timeout)
    = Responds r ->
  fst (check_link s url timeout w)
    = Return ((status_code r >=? 400)%Z,
              "HTTP " ++ str_int (status_code r) ++ " (GET)")
  /\ sent (snd (check_link s url timeout w))
    = (sent w ++ [head_request s url timeout; get_request s url timeout])%list.
Proof.
  intros Hh Hg. rewrite check_link_run. cbn zeta. rewrite Hh, Hg.
  cbn. rewrite <- app_assoc. split; reflexivity.
Qed.

(** X9: A HEAD answer with any status of 400 or more is final: the link is
    broken with [HTTP <code> (HEAD)] and no GET is sent. *)
Theorem check_link_head_error_is_final (s : session) (url : string)
    (timeout : Z) (w : world) (r : response) :
  transport (sent w) (head_request s url timeout) = Responds r ->
  (400 <= status_code r)%Z ->
  fst (check_link s url timeout w)
    = Return (true, "HTTP " ++ str_int (status_code r) ++ " (HEAD)")
  /\ sent (snd (check_link s url timeout w))
    = (sent w ++ [head_request s url timeout])%list.
Proof.
  intros Hh Hge. rewrite check_link_run. cbn zeta. rewrite Hh.
  unfold http_verdict. cbn.
  rewrite Z.geb_leb, (proj2 (Z.leb_le _ _) Hge). split; reflexivity.
Qed.

(** X10: [check_link] prints nothing, keeps the record of earlier
    requests, sends the HEAD first, and sends the GET exactly when the HEAD
    failed with a [RequestException]: never more than two requests, and no
    GET after a HEAD that was answered or that died of another error. *)
Theorem check_link_sends_head_then_maybe_get (s : session) (url : string)
    (timeout : Z) (w : world) :
  stdout (snd (check_link s url timeout w)) = stdout w
  /\ sent (snd (check_link s url timeout w))
     = (sent w
        ++ head_request s url timeout
           :: match transport (sent w) (head_request s url timeout) with
              | Responds _ => []
              | Fails _ => [get_request s url timeout]
              | Escapes _ => []
              end)%list.
Proof.
  split; [apply check_link_stdout|apply check_link_sent].
Qed.

(** X11: A link is reported as not broken only when a response with a status
    below 400 was received, to the HEAD or, after the HEAD failed in the
    transport, to the GET; the description names that status and method. *)
Theorem check_link_ok_needs_status_below_400 (s : session) (url : string)
    (timeout : Z) (w : world) (info : string) :
  fst (check_link s url timeout w) = Return (false, info) ->
  exists r method,
    (status_code r < 400)%Z
    /\ info = "HTTP " ++ str_int (status_code r) ++ " (" ++ method ++ ")"
    /\ ((method = "HEAD"
         /\ transport (sent w) (head_request s url timeout) = Responds r)
        \/ (method = "GET"
            /\ (exists msg,
                  transport (sent w) (head_request s url timeout) = Fails msg)
            /\ transport (sent w ++ [head_request s url timeout])
                         (get_request s url timeout) = Responds r)).
Proof.
  rewrite check_link_run. cbn zeta.
  destruct (transport (sent w) (head_request s url timeout))
    as [r|msg|msg] eqn:Eh;
    [| |cbv beta iota delta [fst]; intros H; discriminate H].
  - unfold http_verdict, fst.
    destruct (status_code r >=? 400)%Z eqn:Hcode; intros H; [discriminate H|].
    injection H as <-.
    exists r, "HEAD". rewrite Z.geb_leb in Hcode. apply Z.leb_gt in Hcode.
    split; [exact Hcode|]. split; [reflexivity|]. left. now split.
  - destruct (transport (sent w ++ [head_request s url timeout])
                         (get_request s url timeout)) as [r|msg2|msg2] eqn:Eg;
      [|cbv beta iota delta [fst]; intros H; discriminate H
       |cbv beta iota delta [fst]; intros H; discriminate H].
    unfold http_verdict, fst.
    destruct (status_code r >=? 400)%Z eqn:Hcode; intros H; [discriminate H|].
    injection H as <-.
    exists r, "GET". rewrite Z.geb_leb in Hcode. apply Z.leb_gt in Hcode.
    split; [exact Hcode|]. split; [reflexivity|]. right.
    split; [reflexivity|]. split; [now exists msg|reflexivity].
Qed.

(** X17: As long as no error other than a [RequestException] escapes from
    the HEAD or from the GET, [check_link] returns a pair and raises
    nothing. *)
Theorem check_link_returns_unless_escape (s : session) (url : string)
    (timeout : Z) (w : world) :
  (forall msg, transport (sent w) (head_request s url timeout) <> Escapes msg) ->
  (forall msg,
     transport (sent w ++ [head_request s url timeout])
               (get_request s url timeout) <> Escapes msg) ->
  exists is_broken info,
    fst (check_link s url timeout w) = Return (is_broken, info).
Proof.
  intros Hh Hg. rewrite check_link_run. cbn zeta.
  destruct (transport (sent w) _) as [r|m|m]; [| |now elim (Hh m)].
  - cbn. eexists. eexists. reflexivity.
  - destruct (transport _ _) as [r|m2|m2]; [| |now elim (Hg m2)];
      cbn; eexists; eexists; reflexivity.
Qed.

(** X18: When the HEAD and then the GET both fail with a
    [RequestException], the link is broken and the description is
    [Error: ] followed by the message of the GET's exception; both requests
    were sent, the HEAD first. *)
Theorem check_link_reports_get_failure (s : session) (url : string)
    (timeout : Z) (w : world) (m1 m2 : string) :
  transport (sent w) (head_request s url timeout) = Fails m1 ->
  transport (sent w ++ [head_request s url timeout]) (get_request s url timeout)
    = Fails m2 ->
  fst (check_link s url timeout w) = Return (true, "Error: " ++ m2)
  /\ sent (snd (check_link s url timeout w))
    = (sent w ++ [head_request s url timeout; get_request s url timeout])%list.
Proof.
  intros Hh Hg. rewrite check_link_run. cbn zeta. rewrite Hh, Hg.
  cbn. rewrite <- app_assoc. split; reflexivity.
Qed.

(** ** More about the orchestrator *)

(** X12: The raw fetch succeeds on every answer whose status is outside 400 to
    599: one GET with a timeout of 15 seconds is sent, the information line
    is printed and the body of the answer is the HTML. *)
Theorem fetch_html_raw_success (url : string) (w : world) (r : response) :
  transport (sent w) (get_request create_session url 15) = Responds r ->
  ~ (400 <= status_code r < 600)%Z ->
  fetch_html create_session url true w
  = (Return (text r),
     mkWorld (sent w ++ [get_request create_session url 15])
       (stdout w ++ ["[INFO] Fetching raw HTML (no JS) from: " ++ url])).
Proof.
  intros Hr Hcode.
  unfold fetch_html, try_except, session_get, send, get_request, sys_exit,
    raise_for_status in *.
  cbn [bind catch raise ret Monad_M MonadExc_M]. rewrite print_run.
  cbn [sent stdout]. rewrite Hr.
  destruct (((400 <=? status_code r) && (status_code r <? 500))%Z) eqn:E1.
  { exfalso. apply andb_true_iff in E1 as [A B]. lia. }
  destruct (((500 <=? status_code r) && (status_code r <? 600))%Z) eqn:E2.
  { exfalso. apply andb_true_iff in E2 as [A B]. lia. }
  reflexivity.
Qed.

(** Fetching the page sends the one GET of the raw mode, or nothing in
    the rendered mode, whatever the outcome. *)
Lemma fetch_html_sent (url : string) (no_js : bool) (w : world) :
  sent (snd (fetch_html create_session url no_js w))
  = (sent w ++ page_requests url no_js)%list.
Proof.
  unfold fetch_html, page_requests, try_except, session_get, send,
    get_request, sys_exit, raise_for_status, get_rendered_html, lift.
  destruct no_js; cbn [bind catch raise ret Monad_M MonadExc_M];
    rewrite print_run; cbn [sent stdout].
  - destruct (transport (sent w) _) as [r|msg|msg]; [|reflexivity|reflexivity].
    destruct (((400 <=? status_code r) && (status_code r <? 500))%Z);
      [reflexivity|].
    destruct (((500 <=? status_code r) && (status_code r <? 600))%Z);
      reflexivity.
  - rewrite app_nil_r.
    destruct (playwright_content url 30000) as [html|e]; [reflexivity|].
    destruct (is_Exception e); reflexivity.
Qed.

(** The requests of a loop that completes: for each link in turn, its HEAD
    or its HEAD and then its GET, and nothing else. *)
Lemma check_loop_sent (s : session) (total : Z) (links : list string) :
  forall i acc w b,
  fst (check_loop s total i links acc w) = Return b ->
  exists per_link,
    sent (snd (check_loop s total i links acc w))
    = (sent w ++ concat per_link)%list
    /\ Forall2 (requests_of_check s) links per_link.
Proof.
  induction links as [|link rest IH]; intros i acc w b.
  - intros _. exists []. cbn. rewrite app_nil_r. split; [reflexivity|constructor].
  - rewrite check_loop_cons.
    set (w1 := snd (print (check_line total i link) w)).
    pose proof (check_link_sent s link 10 w1) as Hsent.
    destruct (check_link s link 10 w1) as [[v|e] w2];
      [|intros H; discriminate H].
    cbn [snd] in Hsent. intros Hret.
    destruct (IH _ _ _ _ Hret) as (per_link & Hs & Hall).
    set (mine := head_request s link 10
                 :: match transport (sent w1) (head_request s link 10) with
                    | Responds _ => []
                    | Fails _ => [get_request s link 10]
                    | Escapes _ => []
                    end) in *.
    exists (mine :: per_link). split.
    + rewrite Hs. cbn [print snd sent concat]. rewrite Hsent. unfold w1.
      cbn [print snd sent]. rewrite <- app_assoc. reflexivity.
    + constructor; [|exact Hall]. unfold mine, requests_of_check.
      destruct (transport _ _); [now left|now right|now left].
Qed.

(** X13: In a run of [main] that reaches the summary, the requests sent
    are the raw fetch of the page, if any, followed, for each extracted
    link in the order of the list, by its HEAD or by its HEAD and then its
    GET, and nothing else: every link is checked with one or two requests,
    each with the session's headers, following redirects, with a timeout of
    10 seconds. *)
Theorem main_requests_are_link_checks (url : string) (no_js : bool) (w : world) :
  fst (main url no_js w) = Return tt ->
  exists html w0 links w1 per_link,
    fetch_html create_session url no_js w = (Return html, w0)
    /\ extract_links html url (snd (print extracting_line w0)) = (Return links, w1)
    /\ sent (snd (main url no_js w))
       = (sent w ++ page_requests url no_js ++ concat per_link)%list
    /\ Forall2 (requests_of_check create_session) links per_link.
Proof.
  rewrite main_run.
  pose proof (fetch_html_sent url no_js w) as Hfetch.
  destruct (fetch_html create_session url no_js w) as [[html|e] w0];
    [|discriminate].
  cbn [snd] in Hfetch.
  destruct (extract_links html url (snd (print extracting_line w0)))
    as [[links|e] w1] eqn:E; [|discriminate].
  destruct links as [|l ls]; [discriminate|].
  destruct (extract_links_inv _ _ _ _ _ E) as (_ & _ & _ & _ & Hs1 & _).
  cbn zeta.
  set (total := Z.of_nat (List.length (l :: ls))).
  set (w2 := snd (print (starting_line total) w1)).
  pose proof (check_loop_sent create_session total (l :: ls) 1 [] w2) as Hloop.
  destruct (check_loop create_session total 1 (l :: ls) [] w2)
    as [[b|e] w3]; [|discriminate].
  intros _. destruct (Hloop b eq_refl) as (per_link & Hs & Hall).
  exists html, w0, (l :: ls), w1, per_link.
  split; [reflexivity|]. split; [exact E|]. split; [|exact Hall].
  cbn [snd sent] in *. rewrite Hs. unfold w2. cbn [print snd sent].
  rewrite Hs1. cbn [print snd sent]. rewrite Hfetch, <- app_assoc. reflexivity.
Qed.

(** X14: Unless the page is fetched and at least one link is extracted
    from it, [main] checks no link: it has sent the raw fetch of the page,
    if any, and nothing else. *)
Theorem main_without_links_checks_nothing (url : string) (no_js : bool)
    (w : world) :
  (forall html w0 links w1,
     fetch_html create_session url no_js w = (Return html, w0) ->
     extract_links html url (snd (print extracting_line w0)) = (Return links, w1) ->
     links = []) ->
  sent (snd (main url no_js w)) = (sent w ++ page_requests url no_js)%list.
Proof.
  intros Hnone. rewrite main_run.
  pose proof (fetch_html_sent url no_js w) as Hfetch.
  destruct (fetch_html create_session url no_js w) as [[html|e] w0];
    cbn [snd] in Hfetch; [|exact Hfetch].
  destruct (extract_links html url (snd (print extracting_line w0)))
    as [[links|e] w1] eqn:E.
  - destruct (extract_links_inv _ _ _ _ _ E) as (_ & _ & _ & _ & Hs1 & _).
    rewrite (Hnone html w0 links w1 eq_refl E).
    cbn [print snd sent]. rewrite Hs1. exact Hfetch.
  - cbn [snd].
    unfold extract_links, lift in E. cbn [bind Monad_M] in E.
    destruct (extract_loop url (anchor_hrefs html) [] 0) as [[links n]|e0];
      [discriminate|].
    injection E as _ <-. exact Hfetch.
Qed.

(** The loop over a list in two parts: the first part, then the second
    from the world, the index and the broken links reached, unless the
    first part raised. *)
Lemma check_loop_app (s : session) (total : Z) (pre post : list string) :
  forall i acc w,
  check_loop s total i (pre ++ post) acc w =
    match check_loop s total i pre acc w with
    | (Return acc', w') =>
        check_loop s total (i + Z.of_nat (List.length pre)) post acc' w'
    | (Raise e, w') => (Raise e, w')
    end.
Proof.
  induction pre as [|link pre IH]; intros i acc w.
  - cbn. now rewrite Z.add_0_r.
  - change ((link :: pre) ++ post)%list with (link :: (pre ++ post))%list.
    rewrite !check_loop_cons.
    destruct (check_link s link 10 _) as [[v|e] w2]; [|reflexivity].
    rewrite IH.
    destruct (check_loop s total (i + 1) pre _ _) as [[a|e] w3]; [|reflexivity].
    f_equal. cbn [List.length]. lia.
Qed.

(** The loop only adds to the output. *)
Lemma check_loop_stdout_grows (s : session) (total : Z) (links : list string) :
  forall i acc w,
  exists more,
    stdout (snd (check_loop s total i links acc w)) = (stdout w ++ more)%list.
Proof.
  induction links as [|link rest IH]; intros i acc w.
  - exists []. cbn. now rewrite app_nil_r.
  - rewrite check_loop_cons.
    set (w1 := snd (print (check_line total i link) w)).
    pose proof (check_link_stdout s link 10 w1) as Hout.
    destruct (check_link s link 10 w1) as [[v|e] w2]; cbn [snd] in *.
    + destruct (IH (i + 1)%Z
                  (if fst v then (acc ++ [(link, snd v)])%list else acc)
                  (snd (print (verdict_line v) w2))) as [more Hmore].
      rewrite Hmore. cbn [print snd stdout]. rewrite Hout. unfold w1.
      cbn [print snd stdout]. rewrite <- !app_assoc. eexists. reflexivity.
    + rewrite Hout. unfold w1. cbn [print snd stdout]. eexists. reflexivity.
Qed.

Lemma progress_lines_length (total : Z) (results : list link_result) :
  forall i, List.length (progress_lines total i results)
            = (2 * List.length results)%nat.
Proof.
  induction results as [|[l v] rs IH]; intros i; [reflexivity|].
  cbn [progress_lines List.length]. rewrite IH. lia.
Qed.

(** The world in which the link after a completed part of the loop is
    announced: what the part printed, then the line of that link. *)
Lemma check_loop_reaches (s : session) (total i : Z) (pre : list string)
    (link : string) (rest : list string) (acc acc' : list (string * string))
    (w : world) :
  fst (check_loop s total i pre acc w) = Return acc' ->
  check_loop s total i (pre ++ link :: rest) acc w =
    let w' := snd (check_loop s total i pre acc w) in
    let i' := (i + Z.of_nat (List.length pre))%Z in
    match check_link s link 10 (snd (print (check_line total i' link) w')) with
    | (Return v, w2) =>
        check_loop s total (i' + 1) rest
          (if fst v then (acc' ++ [(link, snd v)])%list else acc')
          (snd (print (verdict_line v) w2))
    | (Raise e, w2) => (Raise e, w2)
    end.
Proof.
  intros Hpre. rewrite check_loop_app.
  destruct (check_loop s total i pre acc w) as [[a|e] w']; [|discriminate].
  cbn [fst] in Hpre. injection Hpre as ->. apply check_loop_cons.
Qed.

(** X15: The loop numbers its progress lines: once the checks of the
    links before it have returned, the link at position [k] (from 0) is
    announced by the line [[CHECK] (i+k/total) link], two lines per earlier
    link after what was printed before, whatever its own check and the
    later ones do; [main] starts at [i = 1]. *)
Theorem check_loop_numbers_progress (s : session) (total i : Z)
    (pre : list string) (link : string) (rest : list string)
    (acc acc' : list (string * string)) (w : world) :
  fst (check_loop s total i pre acc w) = Return acc' ->
  nth_error (stdout (snd (check_loop s total i (pre ++ link :: rest) acc w)))
            (List.length (stdout w) + 2 * List.length pre)
  = Some ("[CHECK] (" ++ str_int (i + Z.of_nat (List.length pre)) ++ "/"
          ++ str_int total ++ ") " ++ link).
Proof.
  intros Hpre. rewrite (check_loop_reaches _ _ _ _ _ _ _ _ _ Hpre). cbn zeta.
  destruct (check_loop_run s total pre i acc w acc' Hpre) as (_ & Hres & Hout).
  set (w' := snd (check_loop s total i pre acc w)) in *.
  set (i' := (i + Z.of_nat (List.length pre))%Z).
  set (w1 := snd (print (check_line total i' link) w')).
  assert (Hw1 : stdout w1
                = ((stdout w ++ progress_lines total i (link_results s total i pre w))
                   ++ [check_line total i' link])%list).
  { unfold w1. cbn [print snd stdout]. now rewrite Hout. }
  assert (Hlen : List.length (stdout w
                              ++ progress_lines total i (link_results s total i pre w))
                 = (List.length (stdout w) + 2 * List.length pre)%nat).
  { rewrite length_app, progress_lines_length.
    rewrite <- Hres at 2. now rewrite length_map. }
  assert (Hgoal : forall more,
            nth_error ((stdout w1 ++ more)%list)
                      (List.length (stdout w) + 2 * List.length pre)
            = Some (check_line total i' link)).
  { intros more. rewrite Hw1, <- Hlen.
    rewrite <- (app_assoc (stdout w ++ _) [check_line total i' link] more).
    rewrite nth_error_app2 by lia. now rewrite Nat.sub_diag. }
  pose proof (check_link_stdout s link 10 w1) as Hck.
  destruct (check_link s link 10 w1) as [[v|e] w2]; cbn [snd] in *.
  - destruct (check_loop_stdout_grows s total rest (i' + 1)
                (if fst v then (acc' ++ [(link, snd v)])%list else acc')
                (snd (print (verdict_line v) w2))) as [more Hmore].
    rewrite Hmore. cbn [print snd stdout]. rewrite Hck, <- app_assoc.
    apply Hgoal.
  - rewrite Hck, <- (app_nil_r (stdout w1)). apply Hgoal.
Qed.

(** [main] once links are extracted: the loop, then the summary. *)
Lemma main_run_links (url : string) (no_js : bool) (w w0 w1 : world)
    (html : string) (links : list string) :
  fetch_html create_session url no_js w = (Return html, w0) ->
  extract_links html url (snd (print extracting_line w0)) = (Return links, w1) ->
  links <> [] ->
  main url no_js w =
    let total := Z.of_nat (List.length links) in
    let w2 := snd (print (starting_line total) w1) in
    match check_loop create_session total 1 links [] w2 with
    | (Raise e, w3) => (Raise e, w3)
    | (Return broken_links, w3) =>
        (Return tt,
         mkWorld (sent w3)
           (stdout w3
            ++ summary_lines total
                 (Z.of_nat (List.length broken_links)) broken_links))
    end.
Proof.
  intros Hfetch Hext Hne. rewrite main_run, Hfetch, Hext.
  destruct links; [now elim Hne|reflexivity].
Qed.

(** X19: One link whose HEAD dies of an error that is not a
    [RequestException] ends the run: once the checks of the links before it
    have returned, [main] raises that error right after announcing the
    link, with the HEAD as its last request; no verdict for the link, no
    check of the later links and no summary follow, and the exit status
    is 1. *)
Theorem main_dies_at_escaping_link (url : string) (no_js : bool) (w w0 w1 : world)
    (html : string) (pre : list string) (link : string) (rest : list string)
    (acc' : list (string * string)) (msg : string) :
  fetch_html create_session url no_js w = (Return html, w0) ->
  extract_links html url (snd (print extracting_line w0))
  = (Return (pre ++ link :: rest)%list, w1) ->
  let total := Z.of_nat (List.length (pre ++ link :: rest)) in
  let w2 := snd (print (starting_line total) w1) in
  let w3 := snd (check_loop create_session total 1 pre [] w2) in
  fst (check_loop create_session total 1 pre [] w2) = Return acc' ->
  transport (sent w3) (head_request create_session link 10) = Escapes msg ->
  main url no_js w
  = (Raise (ValueError msg),
     mkWorld (sent w3 ++ [head_request create_session link 10])
       (stdout w3 ++ [check_line total (1 + Z.of_nat (List.length pre)) link]))
  /\ exit_status (fst (main url no_js w)) = 1%Z.
Proof.
  intros Hfetch Hext total w2 w3 Hpre Hesc.
  assert (Hrun : main url no_js w
                 = (Raise (ValueError msg),
                    mkWorld (sent w3 ++ [head_request create_session link 10])
                      (stdout w3
                       ++ [check_line total (1 + Z.of_nat (List.length pre)) link]))).
  { assert (Hne : (pre ++ link :: rest)%list <> []) by now destruct pre.
    rewrite (main_run_links _ _ _ _ _ _ _ Hfetch Hext Hne). cbn zeta.
    fold total. fold w2.
    rewrite (check_loop_reaches _ _ _ _ _ _ _ _ _ Hpre). cbn zeta. fold w3.
    rewrite check_link_run. cbn zeta. cbn [print snd sent]. rewrite Hesc.
    reflexivity. }
  split; [exact Hrun|]. rewrite Hrun. reflexivity.
Qed.

Lemma progress_lines_nth (total : Z) (results : list link_result) :
  forall i k link,
  nth_error (map fst results) k = Some link ->
  nth_error (progress_lines total i results) (2 * k)
  = Some (check_line total (i + Z.of_nat k) link).
Proof.
  induction results as [|[l v] rs IH]; intros i k link Hk.
  - destruct k; discriminate.
  - destruct k as [|k].
    + cbn in Hk. injection Hk as ->. cbn. now rewrite Z.add_0_r.
    + cbn [map fst nth_error] in Hk.
      replace (2 * S k)%nat with (S (S (2 * k))) by lia.
      cbn [progress_lines nth_error]. rewrite (IH _ _ _ Hk).
      do 2 f_equal. lia.
Qed.

(** An exception out of the extraction loop is a [ValueError] of
    [urlparse] or was raised by [urljoin]. *)
Lemma extract_loop_raise_kind (base_url : string) (hrefs : list string) :
  forall links raw_count e,
  extract_loop base_url hrefs links raw_count = Raise e ->
  (exists msg, e = ValueError msg)
  \/ exists h, urljoin base_url h = Raise e.
Proof.
  induction hrefs as [|h hrefs IH]; intros links n e Hrun; [discriminate|].
  cbn [extract_loop bind Monad_result] in Hrun.
  unfold is_http_url, urlparse_scheme in Hrun.
  destruct (h =? "").
  - cbn in Hrun. now apply IH in Hrun.
  - destruct (UrlParse.split_scheme (strip h)) as [scheme rest].
    destruct (netloc_error rest) as [msg|].
    + cbn in Hrun. injection Hrun as <-. left. now exists msg.
    + cbn [bind ret Monad_result] in Hrun.
      destruct ((scheme =? "http") || (scheme =? "https"));
        [|destruct ((scheme =? "") && _)]; cbn [negb] in Hrun;
        try (now apply IH in Hrun);
        (destruct (urljoin base_url h) as [u|e0] eqn:Eu;
         [now apply IH in Hrun|injection Hrun as <-; right; now exists h]).
Qed.

(** An exception out of the loop of [main] is a [ValueError] that escaped
    from a request. *)
Lemma check_loop_raise_kind (s : session) (total : Z) (links : list string) :
  forall i acc w e,
  fst (check_loop s total i links acc w) = Raise e ->
  exists msg, e = ValueError msg.
Proof.
  induction links as [|link rest IH]; intros i acc w e; [discriminate|].
  rewrite check_loop_cons.
  set (w1 := snd (print (check_line total i link) w)).
  pose proof (check_link_run s link 10 w1) as Hrun. cbn zeta in Hrun.
  destruct (check_link s link 10 w1) as [[v|e0] w2]; [apply IH|].
  cbn [fst]. intros H. injection H as <-.
  destruct (transport (sent w1) _) as [r|m|m].
  - discriminate Hrun.
  - destruct (transport _ _) as [r|m2|m2]; try discriminate Hrun.
    injection Hrun as -> _. now exists m2.
  - injection Hrun as -> _. now exists m.
Qed.

(** The exit status of the run after the command line is parsed is 0 or
    1, as long as neither the browser automation nor [urljoin] raises a
    [SystemExit] of its own. *)
Lemma main_exit_status_is_0_or_1 (url : string) (no_js : bool) (w : world) :
  (forall code, playwright_content url 30000 <> Raise (SystemExit code)) ->
  (forall h code, urljoin url h <> Raise (SystemExit code)) ->
  exit_status (fst (main url no_js w)) = 0%Z
  \/ exit_status (fst (main url no_js w)) = 1%Z.
Proof.
  intros Hpw Hjoin. rewrite main_run.
  destruct (fetch_html create_session url no_js w) as [[html|e] w0] eqn:Ef.
  - destruct (extract_links html url (snd (print extracting_line w0)))
      as [[links|e] w1] eqn:E.
    + destruct links as [|l ls]; [now left|]. cbn zeta.
      set (total := Z.of_nat (List.length (l :: ls))).
      set (w2 := snd (print (starting_line total) w1)).
      pose proof (check_loop_raise_kind create_session total (l :: ls) 1 [] w2)
        as Hkind.
      destruct (check_loop create_session total 1 (l :: ls) [] w2)
        as [[b|e] w3]; [now left|].
      destruct (Hkind e eq_refl) as [msg ->]. now right.
    + unfold extract_links, lift in E. cbn [bind Monad_M] in E.
      destruct (extract_loop url (anchor_hrefs html) [] 0) as [[links n]|e0] eqn:El;
        [discriminate|].
      injection E as <- _.
      destruct (extract_loop_raise_kind _ _ _ _ _ El) as [(msg & ->)|(h & Hh)];
        [now right|].
      destruct e0; try (now right). now elim (Hjoin h code).
  - right.
    unfold fetch_html, try_except, session_get, send, sys_exit,
      raise_for_status, get_rendered_html, lift in Ef.
    destruct no_js; cbn [bind catch raise ret Monad_M MonadExc_M] in Ef;
      rewrite print_run in Ef; cbn [sent stdout] in Ef.
    + destruct (transport (sent w) _) as [r|msg|msg].
      * destruct (((400 <=? status_code r) && (status_code r <? 500))%Z);
          [cbn in Ef; now injection Ef as <- _|].
        destruct (((500 <=? status_code r) && (status_code r <? 600))%Z);
          [cbn in Ef; now injection Ef as <- _|discriminate].
      * cbn in Ef. now injection Ef as <- _.
      * cbn in Ef. now injection Ef as <- _.
    + destruct (playwright_content url 30000) as [html|e0] eqn:Ep;
        [discriminate|].
      destruct e0; cbn in Ef; try (now injection Ef as <- _).
      now elim (Hpw code).
Qed.

(** X16: The exit status of the script is 0, 1 or 2, and it is 2 only when
    [argparse] refuses the command line, before anything is printed or
    sent; this as long as [argparse] exits with status 0 or 2 only and
    neither the browser automation nor [urljoin] raises a [SystemExit] of
    its own. *)
Theorem main_argv_exit_status (argv : list string) (w : world) :
  (forall e, parse_args argv = Raise e ->
     e = SystemExit 0 \/ e = SystemExit 2) ->
  (forall url code, playwright_content url 30000 <> Raise (SystemExit code)) ->
  (forall base h code, urljoin base h <> Raise (SystemExit code)) ->
  exit_status (fst (main_argv argv w)) = 0%Z
  \/ exit_status (fst (main_argv argv w)) = 1%Z
  \/ (exit_status (fst (main_argv argv w)) = 2%Z
      /\ parse_args argv = Raise (SystemExit 2)
      /\ snd (main_argv argv w) = w).
Proof.
  intros Hargs Hpw Hjoin. unfold main_argv, lift. cbn [bind Monad_M].
  destruct (parse_args argv) as [[url no_js]|e] eqn:Ea.
  - destruct (main_exit_status_is_0_or_1 url no_js w (Hpw url) (Hjoin url))
      as [H|H]; [left|right; left]; exact H.
  - destruct (Hargs e eq_refl) as [-> | ->]; [now left|].
    right. right. repeat split.
Qed.

End Program.

(** ** The properties on concrete pages and networks *)

(** C2, as stated, fails: the href made of one space is white space only,
    yet [is_http_url] accepts it and [extract_links] returns the URL it
    resolves to. *)
Lemma whitespace_href_is_accepted :
  PyStr.strip " " = ""
  /\ is_http_url Stub.netloc_ok " " = Return true
  /\ fst (extract_links Stub.netloc_ok Stub.urljoin (Stub.parser Stub.docs)
            "<blank>" "https://site.test" initial_world)
     = Return ["https://site.test"].
Proof. repeat split. Qed.

Lemma extract_links_skips_empty_href_witness :
  fst (extract_links Stub.netloc_ok Stub.urljoin (Stub.parser Stub.docs)
         "<page>" "https://site.test" initial_world)
  = Return ["https://ok.example/x"; "https://site.test/missing"]
  /\ is_http_url Stub.netloc_ok "" = Return false.
Proof.
  split; [reflexivity|].
  exact (proj1 (extract_links_skips_empty_href Stub.netloc_ok Stub.urljoin
                  (Stub.parser Stub.docs) "<page>" "https://site.test"
                  initial_world _ eq_refl)).
Defined.

Lemma extract_links_excludes_rejected_prefixes_witness :
  fst (extract_links Stub.netloc_ok Stub.urljoin (Stub.parser Stub.docs)
         "<top>" "https://top.test" initial_world)
  = Return []
  /\ is_http_url Stub.netloc_ok "#top" = Return false.
Proof.
  split; [reflexivity|].
  refine (proj1 (extract_links_excludes_rejected_prefixes Stub.netloc_ok
                   Stub.urljoin (Stub.parser Stub.docs) "<top>"
                   "https://top.test" initial_world _ eq_refl) "#top" _ _).
  - left. reflexivity.
  - reflexivity.
Defined.

Lemma extract_links_sorted_unique_witness :
  fst (extract_links Stub.netloc_ok Stub.urljoin (Stub.parser Stub.docs)
         "<page>" "https://site.test" initial_world)
  = Return ["https://ok.example/x"; "https://site.test/missing"]
  /\ StronglySorted PySet.le ["https://ok.example/x"; "https://site.test/missing"]
  /\ NoDup ["https://ok.example/x"; "https://site.test/missing"].
Proof.
  split; [reflexivity|].
  exact (extract_links_sorted_unique Stub.netloc_ok Stub.urljoin
           (Stub.parser Stub.docs) "<page>" "https://site.test"
           initial_world _ eq_refl).
Defined.

Lemma extract_links_resolves_accepted_witness :
  is_http_url Stub.netloc_ok "/missing" = Return true
  /\ exists u,
       Stub.urljoin "https://site.test" "/missing" = Return u
       /\ In u ["https://ok.example/x"; "https://site.test/missing"].
Proof.
  split; [reflexivity|].
  refine (extract_links_resolves_accepted Stub.netloc_ok Stub.urljoin
            (Stub.parser Stub.docs) "<page>" "https://site.test"
            initial_world _ "/missing" eq_refl _ eq_refl).
  left. reflexivity.
Defined.

Lemma check_link_trusts_head_403_405_witness :
  Stub.network Stub.hosts [] (head_request create_session "https://head.test/x" 10)
  = Stub.status 405 ""
  /\ Stub.network Stub.hosts [head_request create_session "https://head.test/x" 10]
       (get_request create_session "https://head.test/x" 10)
     = Stub.status 200 ""
  /\ fst (check_link (Stub.network Stub.hosts) create_session "https://head.test/x" 10 initial_world)
     = Return (true, "HTTP 405 (HEAD)")
  /\ sent (snd (check_link (Stub.network Stub.hosts) create_session "https://head.test/x" 10
                  initial_world))
     = [head_request create_session "https://head.test/x" 10].
Proof.
  split; [reflexivity|]. split; [reflexivity|].
  exact (check_link_trusts_head_403_405 (Stub.network Stub.hosts) create_session
           "https://head.test/x" 10 initial_world _ eq_refl (or_intror eq_refl)).
Defined.

Lemma check_link_raises_escaping_error_witness :
  Stub.network Stub.loop_hosts []
    (head_request create_session Stub.long_label_url 10)
  = Escapes Stub.long_label_error
  /\ fst (check_link (Stub.network Stub.loop_hosts) create_session Stub.long_label_url 10 initial_world)
     = Raise (ValueError Stub.long_label_error).
Proof.
  split; [reflexivity|].
  apply (check_link_raises_escaping_error (Stub.network Stub.loop_hosts) create_session
           Stub.long_label_url 10 initial_world Stub.long_label_error).
  left. reflexivity.
Defined.

Lemma check_link_head_success_single_request_witness :
  fst (check_link (Stub.network Stub.hosts) create_session "https://ok.example/x" 10 initial_world)
  = Return (false, "HTTP 200 (HEAD)")
  /\ sent (snd (check_link (Stub.network Stub.hosts) create_session "https://ok.example/x" 10
                  initial_world))
     = [head_request create_session "https://ok.example/x" 10].
Proof.
  refine (check_link_head_success_single_request (Stub.network Stub.hosts) create_session
            "https://ok.example/x" 10 initial_world _ eq_refl eq_refl _ _);
    discriminate.
Defined.

Lemma main_summary_counts_witness :
  fst (main Stub.netloc_ok Stub.urljoin (Stub.parser Stub.docs) (Stub.network Stub.hosts) (Stub.browser []) "https://site.test" true initial_world) = Return tt
  /\ exists html w0 links w1,
       fetch_html (Stub.network Stub.hosts) (Stub.browser []) create_session
         "https://site.test" true initial_world
       = (Return html, w0)
       /\ extract_links Stub.netloc_ok Stub.urljoin (Stub.parser Stub.docs) html "https://site.test"
            (snd (print extracting_line w0))
          = (Return links, w1)
       /\ let total := Z.of_nat (List.length links) in
          let w2 := snd (print (starting_line total) w1) in
          let results := link_results (Stub.network Stub.hosts) create_session total 1 links w2 in
          let broken_links := broken_of results in
          map fst results = links
          /\ stdout (snd (main Stub.netloc_ok Stub.urljoin (Stub.parser Stub.docs) (Stub.network Stub.hosts) (Stub.browser []) "https://site.test" true initial_world))
             = (stdout w2 ++ progress_lines total 1 results
                ++ summary_lines total
                     (Z.of_nat (List.length (filter verdict_broken results)))
                     broken_links)%list
          /\ List.length (map item_line broken_links)
             = List.length (filter verdict_broken results)
          /\ (List.length (filter verdict_broken results) <= List.length links)%nat.
Proof.
  split; [reflexivity|].
  exact (main_summary_counts Stub.netloc_ok Stub.urljoin (Stub.parser Stub.docs) (Stub.network Stub.hosts) (Stub.browser [])
           "https://site.test" true initial_world eq_refl).
Defined.

Lemma main_broken_links_in_check_order_witness :
  fst (main Stub.netloc_ok Stub.urljoin (Stub.parser Stub.loop_docs) (Stub.network Stub.loop_hosts) (Stub.browser []) "https://two.test" true initial_world) = Return tt
  /\ Stub.parser Stub.loop_docs "<two>"
     = ["/missing"; "https://ok.example/x"; "/gone"]
  /\ skipn 14 (stdout (snd (main Stub.netloc_ok Stub.urljoin (Stub.parser Stub.loop_docs) (Stub.network Stub.loop_hosts) (Stub.browser []) "https://two.test" true initial_world)))
     = [(PyStr.newline ++ "Broken links:")%string;
        "- https://two.test/gone  [HTTP 410 (HEAD)]";
        "- https://two.test/missing  [HTTP 404 (HEAD)]"]
  /\ exists html w0 links w1,
       fetch_html (Stub.network Stub.loop_hosts) (Stub.browser []) create_session
         "https://two.test" true initial_world
       = (Return html, w0)
       /\ extract_links Stub.netloc_ok Stub.urljoin (Stub.parser Stub.loop_docs) html "https://two.test"
            (snd (print extracting_line w0))
          = (Return links, w1)
       /\ let total := Z.of_nat (List.length links) in
          let w2 := snd (print (starting_line total) w1) in
          let results := link_results (Stub.network Stub.loop_hosts) create_session total 1 links w2 in
          let broken_links := broken_of results in
          map fst results = links
          /\ stdout (snd (main Stub.netloc_ok Stub.urljoin (Stub.parser Stub.loop_docs) (Stub.network Stub.loop_hosts) (Stub.browser []) "https://two.test" true initial_world))
             = (stdout w2 ++ progress_lines total 1 results
                ++ summary_lines total (Z.of_nat (List.length broken_links))
                     broken_links)%list
          /\ StronglySorted PySet.lt links
          /\ StronglySorted PySet.lt (map fst broken_links).
Proof.
  split; [reflexivity|]. split; [reflexivity|]. split; [reflexivity|].
  exact (main_broken_links_in_check_order Stub.netloc_ok Stub.urljoin (Stub.parser Stub.loop_docs) (Stub.network Stub.loop_hosts) (Stub.browser [])
           "https://two.test" true initial_world eq_refl).
Defined.


(** ** The end-to-end scenarios of the specification *)

(** Scenario 1: one absolute link that answers 200 to HEAD. *)
Example scenario_ok_link :
  fst (check_link (Stub.network Stub.hosts) create_session
         "https://ok.example/x" 10 initial_world)
  = Return (false, "HTTP 200 (HEAD)").
Proof. reflexivity. Qed.

(** Scenario 2: [/missing] on [https://site.test] answers 404 to HEAD. *)
Example scenario_missing_link :
  Stub.urljoin "https://site.test" "/missing" = Return "https://site.test/missing"
  /\ fst (check_link (Stub.network Stub.hosts) create_session
            "https://site.test/missing" 10 initial_world)
     = Return (true, "HTTP 404 (HEAD)").
Proof. split; reflexivity. Qed.

(** Scenario 3: a page whose only anchor is [#top] has no checkable link;
    [main] prints the warning and exits with status 0. *)
Example scenario_fragment_only :
  exit_status
    (fst (main Stub.netloc_ok Stub.urljoin (Stub.parser Stub.docs)
            (Stub.network Stub.hosts) (Stub.browser [])
            "https://top.test" true initial_world)) = 0%Z
  /\ stdout
       (snd (main Stub.netloc_ok Stub.urljoin (Stub.parser Stub.docs)
               (Stub.network Stub.hosts) (Stub.browser [])
               "https://top.test" true initial_world))
     = ["[INFO] Fetching raw HTML (no JS) from: https://top.test";
        "[INFO] Extracting links from DOM...";
        "[INFO] Raw <a> tags with href found: 1";
        "[INFO] Unique checkable HTTP(S) links: 0";
        "[WARN] 0 checkable links found after rendering. Inspect the HTML or relax filters."].
Proof. split; reflexivity. Qed.

(** A whole run: two links, one of them broken. *)
Example scenario_full_run :
  skipn 5
    (stdout
       (snd (main Stub.netloc_ok Stub.urljoin (Stub.parser Stub.docs)
               (Stub.network Stub.hosts) (Stub.browser [])
               "https://site.test" true initial_world)))
  = ["[CHECK] (1/2) https://ok.example/x";
     "  -> OK: HTTP 200 (HEAD)";
     "[CHECK] (2/2) https://site.test/missing";
     "  -> BROKEN: HTTP 404 (HEAD)";
     (PyStr.newline ++ "=== SUMMARY ===")%string;
     "Total links checked: 2";
     "Broken links found: 1";
     (PyStr.newline ++ "Broken links:")%string;
     "- https://site.test/missing  [HTTP 404 (HEAD)]"].
Proof. reflexivity. Qed.

(** ** The further properties on concrete pages and networks *)

Lemma is_http_url_blank_accepted_witness :
  is_http_url Stub.netloc_ok "   " = Return true.
Proof.
  apply (is_http_url_blank_accepted Stub.netloc_ok "   ");
    [discriminate|reflexivity|reflexivity].
Defined.

Lemma is_http_url_strip_invariant_witness :
  PyStr.strip "  /a/b  " = "/a/b"
  /\ is_http_url Stub.netloc_ok (PyStr.strip "  /a/b  ")
     = is_http_url Stub.netloc_ok "  /a/b  ".
Proof.
  split; [reflexivity|].
  apply (is_http_url_strip_invariant Stub.netloc_ok "  /a/b  "). discriminate.
Defined.

Lemma is_http_url_scheme_decides_witness :
  PyStr.strip " HTTPS://ex.test/a " = "HTTPS://ex.test/a"
  /\ (is_http_url Stub.netloc_ok " HTTPS://ex.test/a " = Return true
      \/ exists msg,
           is_http_url Stub.netloc_ok " HTTPS://ex.test/a "
           = Raise (ValueError msg)).
Proof.
  split; [reflexivity|].
  exact (is_http_url_scheme_decides Stub.netloc_ok " HTTPS://ex.test/a "
           "H" "TTPS" "//ex.test/a" eq_refl eq_refl eq_refl).
Defined.

Lemma is_http_url_colon_free_accepted_witness :
  is_http_url Stub.netloc_ok "../c" = Return true
  \/ exists msg, is_http_url Stub.netloc_ok "../c" = Raise (ValueError msg).
Proof.
  apply (is_http_url_colon_free_accepted Stub.netloc_ok "../c");
    [discriminate|reflexivity|reflexivity].
Defined.

Lemma extract_links_reports_counts_witness :
  sent (snd (extract_links Stub.netloc_ok Stub.urljoin (Stub.parser Stub.docs) "<page>" "https://site.test" initial_world)) = []
  /\ stdout (snd (extract_links Stub.netloc_ok Stub.urljoin (Stub.parser Stub.docs) "<page>" "https://site.test" initial_world))
     = ["[INFO] Raw <a> tags with href found: 6";
        "[INFO] Unique checkable HTTP(S) links: 2"]
  /\ (2 <= 6)%nat.
Proof.
  exact (extract_links_reports_counts Stub.netloc_ok Stub.urljoin (Stub.parser Stub.docs) "<page>" "https://site.test"
           initial_world _ _ eq_refl).
Defined.

Lemma extract_links_depends_on_href_set_witness :
  fst (extract_links Stub.netloc_ok Stub.urljoin (Stub.parser Stub.more_docs) "<shuffled>" "https://site.test" initial_world)
  = Return ["https://ok.example/x"; "https://site.test/missing"]
  /\ ["https://ok.example/x"; "https://site.test/missing"]
     = ["https://ok.example/x"; "https://site.test/missing"].
Proof.
  split; [reflexivity|].
  refine (extract_links_depends_on_href_set Stub.netloc_ok Stub.urljoin (Stub.parser Stub.more_docs) "<page>" "<shuffled>"
            "https://site.test" initial_world initial_world _ _
            eq_refl eq_refl _).
  intros h. cbn. tauto.
Defined.

Lemma main_aborts_on_href_error_witness :
  is_http_url Stub.netloc_brackets "//[broken"
  = Raise (ValueError "Invalid IPv6 URL")
  /\ exists e',
       main Stub.netloc_brackets Stub.urljoin (Stub.parser Stub.more_docs)
         (Stub.network Stub.more_hosts) (Stub.browser []) "https://bad.test" true initial_world
       = (Raise e',
          mkWorld [get_request create_session "https://bad.test" 15]
            ["[INFO] Fetching raw HTML (no JS) from: https://bad.test";
             "[INFO] Extracting links from DOM..."]).
Proof.
  split; [reflexivity|].
  refine (main_aborts_on_href_error Stub.netloc_brackets Stub.urljoin
            (Stub.parser Stub.more_docs) (Stub.network Stub.more_hosts) (Stub.browser [])
            "https://bad.test" true initial_world _ "<bad>" "//[broken" _
            eq_refl _ eq_refl).
  right. left. reflexivity.
Defined.

Lemma check_link_falls_back_to_get_witness :
  fst (check_link (Stub.network Stub.more_hosts) create_session "https://get.test/x" 10 initial_world)
  = Return (false, "HTTP 200 (GET)")
  /\ sent (snd (check_link (Stub.network Stub.more_hosts) create_session "https://get.test/x" 10
                  initial_world))
     = [head_request create_session "https://get.test/x" 10;
        get_request create_session "https://get.test/x" 10].
Proof.
  exact (check_link_falls_back_to_get (Stub.network Stub.more_hosts) create_session
           "https://get.test/x" 10 initial_world _ _ eq_refl eq_refl).
Defined.

Lemma check_link_head_error_is_final_witness :
  fst (check_link (Stub.network Stub.hosts) create_session "https://site.test/missing" 10
         initial_world)
  = Return (true, "HTTP 404 (HEAD)")
  /\ sent (snd (check_link (Stub.network Stub.hosts) create_session "https://site.test/missing" 10
                  initial_world))
     = [head_request create_session "https://site.test/missing" 10].
Proof.
  refine (check_link_head_error_is_final (Stub.network Stub.hosts) create_session
            "https://site.test/missing" 10 initial_world _ eq_refl _).
  cbn. lia.
Defined.

Lemma check_link_ok_needs_status_below_400_witness :
  exists r method,
    (status_code r < 400)%Z
    /\ "HTTP 200 (GET)"
       = ("HTTP " ++ PyStr.str_int (status_code r) ++ " (" ++ method ++ ")")%string
    /\ ((method = "HEAD"
         /\ Stub.network Stub.more_hosts []
              (head_request create_session "https://get.test/x" 10)
            = Responds r)
        \/ (method = "GET"
            /\ (exists msg,
                  Stub.network Stub.more_hosts []
                    (head_request create_session "https://get.test/x" 10)
                  = Fails msg)
            /\ Stub.network Stub.more_hosts
                 [head_request create_session "https://get.test/x" 10]
                 (get_request create_session "https://get.test/x" 10)
               = Responds r)).
Proof.
  exact (check_link_ok_needs_status_below_400 (Stub.network Stub.more_hosts) create_session
           "https://get.test/x" 10 initial_world "HTTP 200 (GET)" eq_refl).
Defined.

Lemma fetch_html_raw_success_witness :
  fetch_html (Stub.network Stub.hosts) (Stub.browser []) create_session "https://site.test" true
    initial_world
  = (Return "<page>",
     mkWorld [get_request create_session "https://site.test" 15]
       ["[INFO] Fetching raw HTML (no JS) from: https://site.test"]).
Proof.
  refine (fetch_html_raw_success (Stub.network Stub.hosts) (Stub.browser []) "https://site.test"
            initial_world _ eq_refl _).
  cbn. lia.
Defined.

Lemma main_requests_are_link_checks_witness :
  fst (main Stub.netloc_ok Stub.urljoin (Stub.parser Stub.docs) (Stub.network Stub.hosts) (Stub.browser []) "https://site.test" true initial_world)
  = Return tt
  /\ exists html w0 links w1 per_link,
       fetch_html (Stub.network Stub.hosts) (Stub.browser []) create_session
         "https://site.test" true initial_world
       = (Return html, w0)
       /\ extract_links Stub.netloc_ok Stub.urljoin (Stub.parser Stub.docs) html "https://site.test"
            (snd (print extracting_line w0))
          = (Return links, w1)
       /\ sent (snd (main Stub.netloc_ok Stub.urljoin (Stub.parser Stub.docs) (Stub.network Stub.hosts) (Stub.browser []) "https://site.test"
                       true initial_world))
          = ([] ++ page_requests "https://site.test" true ++ concat per_link)%list
       /\ Forall2 (requests_of_check create_session) links per_link.
Proof.
  split; [reflexivity|].
  exact (main_requests_are_link_checks Stub.netloc_ok Stub.urljoin (Stub.parser Stub.docs) (Stub.network Stub.hosts) (Stub.browser [])
           "https://site.test" true initial_world eq_refl).
Defined.

Lemma main_without_links_checks_nothing_witness :
  fst (main Stub.netloc_ok Stub.urljoin (Stub.parser Stub.docs) (Stub.network Stub.hosts) (Stub.browser []) "https://top.test" true initial_world)
  = Raise (SystemExit 0)
  /\ sent (snd (main Stub.netloc_ok Stub.urljoin (Stub.parser Stub.docs) (Stub.network Stub.hosts) (Stub.browser []) "https://top.test" true
                  initial_world))
     = [get_request create_session "https://top.test" 15].
Proof.
  split; [reflexivity|].
  apply (main_without_links_checks_nothing Stub.netloc_ok Stub.urljoin (Stub.parser Stub.docs) (Stub.network Stub.hosts) (Stub.browser [])
           "https://top.test" true initial_world).
  intros html w0 links w1 Hf He.
  injection Hf as <- <-. injection He as <- _. reflexivity.
Defined.

Lemma check_loop_numbers_progress_witness :
  fst (check_loop (Stub.network Stub.loop_hosts) create_session 3 1 ["http://a.test/x"] [] initial_world)
  = Return []
  /\ fst (check_loop (Stub.network Stub.loop_hosts) create_session 3 1
            ["http://a.test/x"; Stub.long_label_url; "https://long.test/z"] []
            initial_world)
     = Raise (ValueError Stub.long_label_error)
  /\ nth_error
       (stdout (snd (check_loop (Stub.network Stub.loop_hosts) create_session 3 1
                       ["http://a.test/x"; Stub.long_label_url;
                        "https://long.test/z"] []
                       initial_world)))
       2
     = Some ("[CHECK] (2/3) " ++ Stub.long_label_url)%string.
Proof.
  split; [reflexivity|]. split; [reflexivity|].
  exact (check_loop_numbers_progress (Stub.network Stub.loop_hosts) create_session 3 1
           ["http://a.test/x"] Stub.long_label_url ["https://long.test/z"]
           [] [] initial_world eq_refl).
Defined.

Lemma main_argv_exit_status_witness :
  (exit_status
     (fst (main_argv Stub.netloc_ok Stub.urljoin (Stub.parser Stub.docs) (Stub.network Stub.hosts) (Stub.browser []) Stub.argparse
             ["--no-js"; "https://site.test"] initial_world)) = 0%Z
   \/ exit_status
        (fst (main_argv Stub.netloc_ok Stub.urljoin (Stub.parser Stub.docs) (Stub.network Stub.hosts) (Stub.browser []) Stub.argparse
                ["--no-js"; "https://site.test"] initial_world)) = 1%Z
   \/ (exit_status
         (fst (main_argv Stub.netloc_ok Stub.urljoin (Stub.parser Stub.docs) (Stub.network Stub.hosts) (Stub.browser []) Stub.argparse
                 ["--no-js"; "https://site.test"] initial_world)) = 2%Z
       /\ Stub.argparse ["--no-js"; "https://site.test"] = Raise (SystemExit 2)
       /\ snd (main_argv Stub.netloc_ok Stub.urljoin (Stub.parser Stub.docs) (Stub.network Stub.hosts) (Stub.browser []) Stub.argparse
                 ["--no-js"; "https://site.test"] initial_world)
          = initial_world))
  /\ (exit_status
        (fst (main_argv Stub.netloc_ok Stub.urljoin (Stub.parser Stub.docs) (Stub.network Stub.hosts) (Stub.browser []) Stub.argparse
                [] initial_world)) = 0%Z
      \/ exit_status
           (fst (main_argv Stub.netloc_ok Stub.urljoin (Stub.parser Stub.docs) (Stub.network Stub.hosts) (Stub.browser []) Stub.argparse
                   [] initial_world)) = 1%Z
      \/ (exit_status
            (fst (main_argv Stub.netloc_ok Stub.urljoin (Stub.parser Stub.docs) (Stub.network Stub.hosts) (Stub.browser []) Stub.argparse
                    [] initial_world)) = 2%Z
          /\ Stub.argparse [] = Raise (SystemExit 2)
          /\ snd (main_argv Stub.netloc_ok Stub.urljoin (Stub.parser Stub.docs) (Stub.network Stub.hosts) (Stub.browser []) Stub.argparse
                    [] initial_world)
             = initial_world)).
Proof.
  assert (Hjoin : forall base h code,
            Stub.urljoin base h <> Raise (SystemExit code)).
  { intros base h code. unfold Stub.urljoin.
    destruct (UrlParse.split_scheme h) as [scheme rest].
    repeat match goal with
    | |- context [if ?b then _ else _] => destruct b
    end; discriminate. }
  assert (Hpw : forall url code,
            Stub.browser [] url 30000 <> Raise (SystemExit code)).
  { intros url code. discriminate. }
  split.
  - apply (main_argv_exit_status Stub.netloc_ok Stub.urljoin (Stub.parser Stub.docs) (Stub.network Stub.hosts) (Stub.browser []) Stub.argparse
             ["--no-js"; "https://site.test"] initial_world);
      [intros e He; discriminate He|exact Hpw|exact Hjoin].
  - apply (main_argv_exit_status Stub.netloc_ok Stub.urljoin (Stub.parser Stub.docs) (Stub.network Stub.hosts) (Stub.browser []) Stub.argparse
             [] initial_world);
      [intros e He; injection He as <-; now right|exact Hpw|exact Hjoin].
Defined.

Lemma check_link_returns_unless_escape_witness :
  exists is_broken info,
    fst (check_link (Stub.network Stub.hosts) create_session "https://nowhere.test" 10 initial_world)
    = Return (is_broken, info).
Proof.
  apply (check_link_returns_unless_escape (Stub.network Stub.hosts) create_session
           "https://nowhere.test" 10 initial_world);
    intros msg; discriminate.
Defined.

Lemma check_link_reports_get_failure_witness :
  fst (check_link (Stub.network Stub.hosts) create_session "https://nowhere.test" 10 initial_world)
  = Return (true, "Error: unreachable")
  /\ sent (snd (check_link (Stub.network Stub.hosts) create_session "https://nowhere.test" 10
                  initial_world))
     = [head_request create_session "https://nowhere.test" 10;
        get_request create_session "https://nowhere.test" 10].
Proof.
  exact (check_link_reports_get_failure (Stub.network Stub.hosts) create_session
           "https://nowhere.test" 10 initial_world "unreachable" "unreachable"
           eq_refl eq_refl).
Defined.

Lemma main_dies_at_escaping_link_witness :
  fst (main Stub.netloc_ok Stub.urljoin (Stub.parser Stub.loop_docs) (Stub.network Stub.loop_hosts) (Stub.browser []) "https://long.test" true
         initial_world)
  = Raise (ValueError Stub.long_label_error)
  /\ exit_status
       (fst (main Stub.netloc_ok Stub.urljoin (Stub.parser Stub.loop_docs) (Stub.network Stub.loop_hosts) (Stub.browser []) "https://long.test" true
               initial_world)) = 1%Z
  /\ skipn 5
       (stdout (snd (main Stub.netloc_ok Stub.urljoin (Stub.parser Stub.loop_docs) (Stub.network Stub.loop_hosts) (Stub.browser []) "https://long.test"
                       true initial_world)))
     = ["[CHECK] (1/3) http://a.test/x";
        "  -> OK: HTTP 200 (HEAD)";
        ("[CHECK] (2/3) " ++ Stub.long_label_url)%string].
Proof.
  pose proof (main_dies_at_escaping_link Stub.netloc_ok Stub.urljoin (Stub.parser Stub.loop_docs) (Stub.network Stub.loop_hosts) (Stub.browser [])
                "https://long.test" true initial_world _ _ "<long>"
                ["http://a.test/x"] Stub.long_label_url ["https://long.test/z"]
                [] Stub.long_label_error eq_refl eq_refl eq_refl eq_refl)
    as [Hrun Hexit].
  split; [rewrite Hrun; reflexivity|]. split; [exact Hexit|reflexivity].
Defined.
